(** * Personal finance chatbot: a shallow embedding of [finance_chatbot.py]

    The embedding follows the Python module class by class:
    [FinancialAnalyzer], [ResponseGenerator] and
    [PersonalFinanceChatbot].

    Modelling conventions.
    - Python numbers ([int] and [float]) are exact rationals ([Q]); the
      rounding of binary floating point is not modelled, so every
      statement about amounts is a statement about the exact values.
      Where rounding could break an equality or an order between
      computed amounts, the statement is given for amounts on which the
      code computes exactly, or in a form that rounding preserves;
      [BudgetFloats] runs the sums of the budget analysis on binary64
      values.  [float('inf')] is the constructor [Infinity] of [bound].
    - [str] is [string], a sequence of bytes holding the UTF-8 encoding
      of the Python text; the literals are those of the source file,
      byte for byte.  Case mapping and the digit class of the regular
      expression act on ASCII.
    - A [dict] of expenses is an association list in insertion order
      (the order decides ties in [sorted]); the profile store is a
      [gmap] keyed by the user identifier.  A profile is a value: that
      two profiles created with one and the same [dict] object share its
      later updates is not modelled.
    - An exception is a value of [exn]; code that may raise returns
      [Result], and the methods of the chatbot run in the monad [M],
      which threads the chatbot's state and the log. *)

From Stdlib Require Import QArith Qabs Lqa ZArith String Ascii List DecimalString Sorted PrimFloat.
From stdpp Require Import gmap strings.
Import ListNotations.

(** ** Numbers *)

Module Num.
Local Open Scope Q_scope.

(** [x < y] on numbers, as a boolean. *)
Definition Qltb (x y : Q) : bool := negb (Qle_bool y x).

(** [x != 0]: the truth value of a number. *)
Definition truthy (x : Q) : bool := negb (Qeq_bool x 0).

(** An upper bound of a bracket: a number or [float('inf')]. *)
Inductive bound : Type :=
| Finite (q : Q)
| Infinity.

(** [min(a, b)]: the first argument unless the second is smaller. *)
Definition py_min (a b : Q) : Q := if Qltb b a then b else a.

(** [max(a, b)]: the first argument unless the second is larger. *)
Definition py_max (a b : Q) : Q := if Qltb a b then b else a.

(** [min(income, upper)] with a possibly infinite [upper]. *)
Definition min_bound (a : Q) (b : bound) : Q :=
  match b with
  | Finite q => py_min a q
  | Infinity => a
  end.

(** [sum(values)]: left to right from [0]. *)
Definition py_sum (l : list Q) : Q := fold_left Qplus l 0.

End Num.
Export Num.

(** ** Text: the string operations of the Python runtime that the module calls *)

Module Text.
Local Open Scope string_scope.

(** The double-quote character. *)
Definition dq : string := String (ascii_of_nat 34) EmptyString.

Definition code (c : ascii) : nat := nat_of_ascii c.

Definition is_digit (c : ascii) : bool := (48 <=? code c)%nat && (code c <=? 57)%nat.
Definition is_upper (c : ascii) : bool := (65 <=? code c)%nat && (code c <=? 90)%nat.
Definition is_lower (c : ascii) : bool := (97 <=? code c)%nat && (code c <=? 122)%nat.

Definition to_lower (c : ascii) : ascii :=
  if is_upper c then ascii_of_nat (code c + 32) else c.
Definition to_upper (c : ascii) : ascii :=
  if is_lower c then ascii_of_nat (code c - 32) else c.

(** [s.lower()] *)
Fixpoint lower (s : string) : string :=
  match s with
  | EmptyString => EmptyString
  | String c s' => String (to_lower c) (lower s')
  end.

(** [s.title()]: a cased letter is upper-cased after an uncased character
    (or at the start) and lower-cased after a cased one. *)
Fixpoint title_from (prev_cased : bool) (s : string) : string :=
  match s with
  | EmptyString => EmptyString
  | String c s' =>
      if is_lower c || is_upper c
      then String (if prev_cased then to_lower c else to_upper c) (title_from true s')
      else String c (title_from false s')
  end.

Definition title (s : string) : string := title_from false s.

(** [needle in hay] *)
Fixpoint contains (needle hay : string) : bool :=
  String.prefix needle hay
  || match hay with
     | EmptyString => false
     | String _ hay' => contains needle hay'
     end.

(** [s.replace(old, new)] for a non-empty [old]: the occurrences are
    replaced from left to right and do not overlap.  [skip] counts the
    characters of the current occurrence still to be passed over. *)
Fixpoint replace_from (skip : nat) (old new s : string) : string :=
  match s with
  | EmptyString => EmptyString
  | String c s' =>
      match skip with
      | S k => replace_from k old new s'
      | O =>
          if String.prefix old s
          then new ++ replace_from (String.length old - 1) old new s'
          else String c (replace_from 0 old new s')
      end
  end.

Definition replace (old new s : string) : string := replace_from 0 old new s.

(** The longest run of digits at the start of [s]: the group [(\d+)]. *)
Fixpoint leading_digits (s : string) : string :=
  match s with
  | EmptyString => EmptyString
  | String c s' => if is_digit c then String c (leading_digits s') else EmptyString
  end.

(** [re.sub(r'\$(\d+)', repl, s)], where [repl] receives the group. *)
Fixpoint sub_dollar_digits_from (skip : nat) (repl : string -> string) (s : string) : string :=
  match s with
  | EmptyString => EmptyString
  | String c s' =>
      match skip with
      | S k => sub_dollar_digits_from k repl s'
      | O =>
          if Ascii.eqb c "$" && negb (String.eqb (leading_digits s') EmptyString)
          then repl (leading_digits s')
               ++ sub_dollar_digits_from (String.length (leading_digits s')) repl s'
          else String c (sub_dollar_digits_from 0 repl s')
      end
  end.

Definition sub_dollar_digits (repl : string -> string) (s : string) : string :=
  sub_dollar_digits_from 0 repl s.

(** Decimal digits of a natural number. *)
Definition digits (n : Z) : string := NilZero.string_of_uint (N.to_uint (Z.to_N n)).

(** [str(n)] for an [int]. *)
Definition str_int (n : Z) : string :=
  if (n <? 0)%Z then "-" ++ digits (- n) else digits n.

(** The thousands separator of the [,] format option, on reversed digits. *)
Fixpoint group3_rev (k : nat) (l : list ascii) : list ascii :=
  match l with
  | [] => []
  | c :: l' =>
      match k with
      | O => ","%char :: c :: group3_rev 2 l'
      | S k' => c :: group3_rev k' l'
      end
  end.

Definition group3 (s : string) : string :=
  string_of_list_ascii (rev (group3_rev 3 (rev (list_ascii_of_string s)))).

Fixpoint zeros (n : nat) : string :=
  match n with
  | O => EmptyString
  | S n' => String "0" (zeros n')
  end.

Definition pad_zeros (width : nat) (s : string) : string :=
  zeros (width - String.length s) ++ s.

(** Rounding to the nearest integer, ties to the even one. *)
Definition round_half_even (x : Q) : Z :=
  let n := Qnum x in
  let d := Zpos (Qden x) in
  let q := (n / d)%Z in
  match (2 * (n mod d) ?= d)%Z with
  | Lt => q
  | Gt => (q + 1)%Z
  | Eq => if Z.even q then q else (q + 1)%Z
  end.

(** [format(x, ',.<places>f')] when [comma], [format(x, '.<places>f')]
    otherwise. *)
Definition fmt_f (comma : bool) (places : nat) (x : Q) : string :=
  let scale := (10 ^ Z.of_nat places)%Z in
  let scaled := round_half_even (Qabs x * inject_Z scale) in
  let int_part := digits (scaled / scale) in
  (if (Qnum x <? 0)%Z then "-" else EmptyString)
  ++ (if comma then group3 int_part else int_part)
  ++ match places with
     | O => EmptyString
     | S _ => "." ++ pad_zeros places (digits (scaled mod scale))
     end.

(** [str(x)] for a [float] with at most one fractional digit, which is
    what the bracket rates times 100 are: [10.0], [12.0], ... *)
Definition str_float (x : Q) : string := fmt_f false 1 x.

End Text.

(** ** Exceptions *)

(** The exceptions the module can raise; each is a subclass of Python's
    [Exception]. *)
Inductive exn : Type :=
| ZeroDivisionError
| TypeError
| KeyError.

(** The outcome of a call: a returned value or a raised exception. *)
Inductive Result (A : Type) : Type :=
| Return (a : A)
| Raise (e : exn).

Arguments Return {A} a.
Arguments Raise {A} e.

Definition bindR {A B : Type} (r : Result A) (k : A -> Result B) : Result B :=
  match r with
  | Return a => k a
  | Raise e => Raise e
  end.

Declare Scope result_scope.
Delimit Scope result_scope with result.
Notation "x <- r ;; k" := (bindR r (fun x => k))
  (at level 100, r at next level, right associativity) : result_scope.

(** [a / b], which raises on a zero divisor. *)
Definition py_div (a b : Q) : Result Q :=
  if Qeq_bool b 0 then Raise ZeroDivisionError else Return (a / b)%Q.

(** ** Dictionaries in insertion order *)

Section Dict.
Context {V : Type}.

(** [d.get(key)] *)
Fixpoint dict_lookup (key : string) (d : list (string * V)) : option V :=
  match d with
  | [] => None
  | (k, v) :: d' => if String.eqb key k then Some v else dict_lookup key d'
  end.

(** [d.get(key, dflt)] *)
Definition dict_get (d : list (string * V)) (key : string) (dflt : V) : V :=
  default dflt (dict_lookup key d).

(** [d[key] = v]: an existing key keeps its position. *)
Fixpoint dict_set (key : string) (v : V) (d : list (string * V)) : list (string * V) :=
  match d with
  | [] => [(key, v)]
  | (k, w) :: d' => if String.eqb key k then (k, v) :: d' else (k, w) :: dict_set key v d'
  end.

(** [d.update(other)] *)
Definition dict_update (d other : list (string * V)) : list (string * V) :=
  fold_left (fun acc kv => dict_set (fst kv) (snd kv) acc) other d.

(** [d.values()] *)
Definition values (d : list (string * V)) : list V := map snd d.

(** The truth value of a dictionary: it is not empty. *)
Definition nonempty (d : list (string * V)) : bool :=
  match d with
  | [] => false
  | _ :: _ => true
  end.
End Dict.

(** ** UserProfile *)

Record UserProfile : Type := mkUserProfile {
  user_type : string;
  age : Z;
  income : option Q;
  expenses : list (string * Q);
  financial_goals : list string;
  risk_tolerance : string
}.

(** The constructor with its defaults and [__post_init__]: an absent
    mapping or list becomes an empty one, and the risk tolerance defaults
    to [moderate]. *)
Definition UserProfile_init (user_type : string) (age : Z) (income : option Q)
    (expenses : option (list (string * Q))) (financial_goals : option (list string))
    (risk_tolerance : option string) : UserProfile :=
  mkUserProfile user_type age income (default [] expenses) (default [] financial_goals)
    (default "moderate"%string risk_tolerance).

(** ** FinancialAnalyzer *)

Module FinancialAnalyzer.
Import Text.
Local Open Scope string_scope.
Local Open Scope Q_scope.

(** A bracket [(lower, upper, rate)]. *)
Definition Bracket : Type := Q * bound * Q.

Definition single : list Bracket :=
  [ (0, Finite 11000, 0.10);
    (11000, Finite 44725, 0.12);
    (44725, Finite 95375, 0.22);
    (95375, Finite 182050, 0.24);
    (182050, Finite 231250, 0.32);
    (231250, Finite 578125, 0.35);
    (578125, Infinity, 0.37) ].

Definition tax_brackets_2024 : gmap string (list Bracket) := {[ "single" := single ]}.

Record TaxBreakdown : Type := mkTaxBreakdown {
  bracket : string;
  range : string;
  taxable_amount : Q;
  tax_amount : Q
}.

Record TaxEstimate : Type := mkTaxEstimate {
  total_tax : Q;
  effective_rate : Q;
  after_tax_income : Q;
  breakdown : list TaxBreakdown
}.

(** The entry appended to the breakdown for a bracket. *)
Definition breakdown_entry (income : Q) (b : Bracket) : TaxBreakdown :=
  let '(lower, upper, rate) := b in
  let taxable_in_bracket := min_bound income upper - lower in
  let tax_in_bracket := taxable_in_bracket * rate in
  {| bracket := str_float (rate * 100) ++ "%";
     range := match upper with
              | Finite u => "$" ++ fmt_f true 0 lower ++ " - $" ++ fmt_f true 0 u
              | Infinity => "$" ++ fmt_f true 0 lower ++ "+"
              end;
     taxable_amount := taxable_in_bracket;
     tax_amount := tax_in_bracket |}.

(** The loop over the brackets, with its two accumulators. *)
Fixpoint tax_loop (income : Q) (brackets : list Bracket) (total_tax : Q)
    (tax_breakdown : list TaxBreakdown) : Q * list TaxBreakdown :=
  match brackets with
  | [] => (total_tax, tax_breakdown)
  | (lower, upper, rate) :: rest =>
      if Qle_bool income lower then (total_tax, tax_breakdown)
      else
        let taxable_in_bracket := min_bound income upper - lower in
        let tax_in_bracket := taxable_in_bracket * rate in
        tax_loop income rest (total_tax + tax_in_bracket)
          (if Qltb 0 taxable_in_bracket
           then (tax_breakdown ++ [breakdown_entry income (lower, upper, rate)])%list
           else tax_breakdown)
  end.

(** In the result the division is guarded by [income > 0]. *)
Definition calculate_tax_estimate (income : Q) (filing_status : string) : TaxEstimate :=
  let brackets :=
    default (default [] (tax_brackets_2024 !! "single")) (tax_brackets_2024 !! filing_status) in
  let '(total_tax, tax_breakdown) := tax_loop income brackets 0 [] in
  {| total_tax := total_tax;
     effective_rate := if Qltb 0 income then (total_tax / income) * 100 else 0;
     after_tax_income := income - total_tax;
     breakdown := tax_breakdown |}.

Record Recommended : Type := mkRecommended {
  recommended_needs : Q;
  recommended_wants : Q;
  recommended_savings : Q
}.

Record BudgetAnalysis : Type := mkBudgetAnalysis {
  total_income : Q;
  total_expenses : Q;
  savings : Q;
  savings_rate : Q;
  needs_spending : Q;
  wants_spending : Q;
  recommended : Recommended;
  budget_health : string
}.

Definition _assess_budget_health (savings_rate needs wants income : Q) : string :=
  if Qle_bool 20 savings_rate then "excellent"
  else if Qle_bool 10 savings_rate then "good"
  else if Qle_bool 5 savings_rate then "fair"
  else "needs_improvement".

Definition needs_categories : list string :=
  ["rent"; "utilities"; "groceries"; "transportation"; "insurance"; "minimum_debt_payments"].

Definition wants_categories : list string :=
  ["dining_out"; "entertainment"; "shopping"; "hobbies"; "subscriptions"].

Definition analyze_budget (income : Q) (expenses : list (string * Q)) : BudgetAnalysis :=
  let total_expenses := py_sum (values expenses) in
  let savings := income - total_expenses in
  let savings_rate := if Qltb 0 income then (savings / income) * 100 else 0 in
  let recommended :=
    {| recommended_needs := income * 0.50;
       recommended_wants := income * 0.30;
       recommended_savings := income * 0.20 |} in
  let needs_total := py_sum (map (fun cat => dict_get expenses cat 0) needs_categories) in
  let wants_total := py_sum (map (fun cat => dict_get expenses cat 0) wants_categories) in
  {| total_income := income;
     total_expenses := total_expenses;
     savings := savings;
     savings_rate := savings_rate;
     needs_spending := needs_total;
     wants_spending := wants_total;
     recommended := recommended;
     budget_health := _assess_budget_health savings_rate needs_total wants_total income |}.

Record Suggestion : Type := mkSuggestion {
  type : string;
  allocation : Q;
  reason : string;
  risk_level : string;
  expected_return : string
}.

Definition generate_investment_suggestions (user_profile : UserProfile)
    (available_funds : Q) : list Suggestion :=
  if String.eqb (user_type user_profile) "student" then
    [ {| type := "High-Yield Savings Account";
         allocation := py_min available_funds 5000;
         reason := "Build emergency fund with easy access";
         risk_level := "Very Low";
         expected_return := "4-5% APY" |};
      {| type := "Index Fund (S&P 500)";
         allocation := available_funds * 0.7;
         reason := "Long-term growth with diversification";
         risk_level := "Moderate";
         expected_return := "8-10% annually" |} ]
  else if String.eqb (risk_tolerance user_profile) "low" then
    [ {| type := "Bond Index Fund";
         allocation := available_funds * 0.4;
         reason := "Stable income with lower volatility";
         risk_level := "Low";
         expected_return := "3-5% annually" |};
      {| type := "Dividend Growth Fund";
         allocation := available_funds * 0.6;
         reason := "Regular income with growth potential";
         risk_level := "Moderate";
         expected_return := "6-8% annually" |} ]
  else if String.eqb (risk_tolerance user_profile) "high" then
    [ {| type := "Growth Stock Index";
         allocation := available_funds * 0.7;
         reason := "Higher growth potential for long-term wealth building";
         risk_level := "High";
         expected_return := "10-12% annually" |};
      {| type := "International Fund";
         allocation := available_funds * 0.3;
         reason := "Geographic diversification";
         risk_level := "Moderate-High";
         expected_return := "8-10% annually" |} ]
  else [].

End FinancialAnalyzer.

(** ** ResponseGenerator *)

Module ResponseGenerator.
Import Text FinancialAnalyzer.
Local Open Scope string_scope.
Local Open Scope Q_scope.

Record ToneStyle : Type := mkToneStyle {
  greeting : string;
  complexity : string;
  examples : string;
  encouragement : string
}.

Definition tone_styles : gmap string ToneStyle :=
  <[ "student" := {| greeting := "Hey there! ðŸ‘‹";
                     complexity := "simple";
                     examples := "relatable_student";
                     encouragement := "motivational" |} ]>
  {[ "professional" := {| greeting := "Good day,";
                          complexity := "detailed";
                          examples := "career_focused";
                          encouragement := "strategic" |} ]}.

(** [tone_styles[user_type]] *)
Definition tone_style (user_type : string) : Result ToneStyle :=
  match tone_styles !! user_type with
  | Some style => Return style
  | None => Raise KeyError
  end.

(** The replacement template of the substitution, applied to the group. *)
Definition coffee (amount : string) : string :=
  "$" ++ amount ++ " (that\'s like " ++ amount ++ " cups of coffee! â˜•)".

(** The style looked up at the start of the Python method is not used. *)
Definition adapt_tone (message : string) (user_type : string) : string :=
  if String.eqb user_type "student" then
    let message := replace "You should" "You might want to" message in
    let message := replace "It is recommended" "It's a good idea to" message in
    sub_dollar_digits coffee message
  else message.

Definition generate_budget_summary (analysis : BudgetAnalysis)
    (user_profile : UserProfile) : Result string :=
  (let user_type := user_type user_profile in
   style <- tone_style user_type ;;
   let summary :=
     "
" ++ greeting style
     ++ " Here's your budget analysis:

ðŸ’° **Income & Spending Overview**
â€¢ Monthly Income: $" ++ fmt_f true 2 (total_income analysis)
     ++ "
â€¢ Total Expenses: $" ++ fmt_f true 2 (total_expenses analysis)
     ++ "
â€¢ Monthly Savings: $" ++ fmt_f true 2 (savings analysis)
     ++ "
â€¢ Savings Rate: " ++ fmt_f false 1 (savings_rate analysis)
     ++ "%

ðŸ“Š **Budget Breakdown**
â€¢ Needs (Housing, Food, Transport): $" ++ fmt_f true 2 (needs_spending analysis)
     ++ "
â€¢ Wants (Entertainment, Shopping): $" ++ fmt_f true 2 (wants_spending analysis)
     ++ "
â€¢ Recommended Savings Target: $" ++ fmt_f true 2 (recommended_savings (recommended analysis))
     ++ " (20% of income)

ðŸŽ¯ **Budget Health: " ++ title (replace "_" " " (budget_health analysis))
     ++ "**
" in
   let summary :=
     if String.eqb (budget_health analysis) "excellent" then
       summary ++ "
ðŸŒŸ Outstanding work! You're exceeding savings goals."
     else if String.eqb (budget_health analysis) "needs_improvement" then
       summary ++ "
âš ï¸  Let's work on boosting that savings rate. Small changes can make a big difference!"
     else summary in
   Return (adapt_tone summary user_type))%result.

(** [sorted(items, key=amount, reverse=True)]: a stable sort, so among
    equal amounts the earlier item stays first. *)
Fixpoint insert_desc (x : string * Q) (l : list (string * Q)) : list (string * Q) :=
  match l with
  | [] => [x]
  | y :: l' => if Qltb (snd x) (snd y) then y :: insert_desc x l' else x :: l
  end.

Definition sorted_desc (items : list (string * Q)) : list (string * Q) :=
  fold_right insert_desc [] items.

Definition generate_spending_insights (expenses : list (string * Q))
    (user_profile : UserProfile) : Result (list string) :=
  (let total_expenses := py_sum (values expenses) in
   let sorted_expenses := sorted_desc expenses in
   insights <-
     match sorted_expenses with
     | [] => Return []
     | (highest_category, highest_amount) :: _ =>
         quotient <- py_div highest_amount total_expenses ;;
         let percentage := quotient * 100 in
         let insights :=
           [ "Your highest expense is " ++ highest_category ++ ": $" ++ fmt_f true 2 highest_amount
             ++ " (" ++ fmt_f false 1 percentage ++ "% of total spending)" ] in
         Return
           (if existsb (String.eqb highest_category) ["dining_out"; "entertainment"] then
              if String.eqb (user_type user_profile) "student" then
                (insights ++ [ "ðŸ’¡ Try cooking more meals at home or finding free campus activities to reduce this expense." ])%list
              else
                (insights ++ [ "ðŸ’¡ Consider meal prepping or setting a monthly entertainment budget to control this expense." ])%list
            else if String.eqb highest_category "rent" then
              if Qltb 30 percentage then
                (insights ++ [ "âš ï¸  Housing costs exceed the recommended 30% of income. Consider roommates or relocating if possible." ])%list
              else insights
            else insights)
     end ;;
   let insights :=
     match dict_lookup "subscriptions" expenses with
     | Some amount =>
         if Qltb 50 amount then
           (insights ++ [ "ðŸ” Review subscriptions - you might have services you're not using regularly." ])%list
         else insights
     | None => insights
     end in
   Return (map (fun insight => adapt_tone insight (user_type user_profile)) insights))%result.

End ResponseGenerator.

(** ** PersonalFinanceChatbot *)

Module PersonalFinanceChatbot.
Import Text FinancialAnalyzer ResponseGenerator.
Local Open Scope string_scope.
Local Open Scope Q_scope.

(** The chatbot object. *)
Record Chatbot : Type := mkChatbot {
  user_profiles : gmap string UserProfile;
  conversation_history : gmap string (list string)
}.

(** The state a method runs in: the chatbot and the records the module's
    logger has received (one per logged exception). *)
Record State : Type := mkState {
  chatbot : Chatbot;
  logged : list exn
}.

(** [PersonalFinanceChatbot()] *)
Definition init : State :=
  {| chatbot := {| user_profiles := ∅; conversation_history := ∅ |}; logged := [] |}.

(** A method: it runs from a state, returns or raises, and leaves a state. *)
Definition M (A : Type) : Type := State -> Result A * State.

Definition ret {A : Type} (a : A) : M A := fun st => (Return a, st).

Definition raise {A : Type} (e : exn) : M A := fun st => (Raise e, st).

Definition bind {A B : Type} (m : M A) (k : A -> M B) : M B :=
  fun st =>
    match m st with
    | (Return a, st') => k a st'
    | (Raise e, st') => (Raise e, st')
    end.

(** The outcome of code that does not touch the state. *)
Definition lift {A : Type} (r : Result A) : M A := fun st => (r, st).

Definition get_profiles : M (gmap string UserProfile) :=
  fun st => (Return (user_profiles (chatbot st)), st).

Definition set_profiles (profiles : gmap string UserProfile) : M unit :=
  fun st =>
    (Return tt,
     {| chatbot := {| user_profiles := profiles;
                      conversation_history := conversation_history (chatbot st) |};
        logged := logged st |}).

(** [logger.error(...)] *)
Definition log_error (e : exn) : M unit :=
  fun st => (Return tt, {| chatbot := chatbot st; logged := (logged st ++ [e])%list |}).

(** [try: body  except Exception as e: handler(e)] *)
Definition try_except {A : Type} (body : M A) (handler : exn -> M A) : M A :=
  fun st =>
    match body st with
    | (Return a, st') => (Return a, st')
    | (Raise e, st') => handler e st'
    end.

Declare Scope method_scope.
Delimit Scope method_scope with method.
Notation "x <- m ;; k" := (bind m (fun x => k))
  (at level 100, m at next level, right associativity) : method_scope.
Notation "m ;; k" := (bind m (fun _ => k))
  (at level 100, right associativity) : method_scope.

(** The fixed replies. *)
Definition create_profile_first : string :=
  "Please create your profile first using create_profile().".

Definition processing_error : string :=
  "I'm sorry, I encountered an error processing your request. Please try again.".

Definition need_income_for_taxes : string :=
  "I need your income information to calculate taxes. Please update your profile with your annual income.".

Definition need_income_and_expenses : string :=
  "I need your income and expense information to analyze your budget. Please update your profile.".

Definition need_income_for_investing : string :=
  "I need your income information to provide investment advice. Please update your profile.".

Definition no_profile_found : string := "No profile found.".

Definition create_user_profile (user_id user_type : string) (age : Z) (income : option Q)
    (expenses : option (list (string * Q))) (financial_goals : option (list string))
    (risk_tolerance : option string) : M UserProfile :=
  (let profile := UserProfile_init user_type age income expenses financial_goals risk_tolerance in
   profiles <- get_profiles ;;
   set_profiles (<[ user_id := profile ]> profiles) ;;
   ret profile)%method.

Definition update_user_expenses (user_id : string) (new_expenses : list (string * Q)) : M unit :=
  (profiles <- get_profiles ;;
   match profiles !! user_id with
   | Some profile =>
       set_profiles
         (<[ user_id := mkUserProfile (user_type profile) (age profile) (income profile)
                          (dict_update (expenses profile) new_expenses)
                          (financial_goals profile) (risk_tolerance profile) ]> profiles)
   | None => ret tt
   end)%method.

Definition _handle_tax_query (user_profile : UserProfile) (query : string) : M string :=
  match income user_profile with
  | None => ret need_income_for_taxes
  | Some income =>
      if negb (truthy income) then ret need_income_for_taxes
      else
        let tax_analysis := calculate_tax_estimate income "single" in
        let response :=
          "
ðŸ“‹ **Tax Estimate for $" ++ fmt_f true 0 income
          ++ " Annual Income**

â€¢ Estimated Federal Tax: $" ++ fmt_f true 2 (total_tax tax_analysis)
          ++ "
â€¢ Effective Tax Rate: " ++ fmt_f false 1 (effective_rate tax_analysis)
          ++ "%
â€¢ After-Tax Income: $" ++ fmt_f true 2 (after_tax_income tax_analysis)
          ++ "

ðŸ’¡ **Tax Planning Tips:**
" in
        let response :=
          if String.eqb (user_type user_profile) "student" then
            response ++ "
â€¢ Claim education credits (American Opportunity Credit up to $2,500)
â€¢ Keep receipts for textbooks and school supplies
â€¢ Consider a part-time job for work-study benefits
"
          else
            response ++ "
â€¢ Maximize 401(k) contributions to reduce taxable income
â€¢ Consider HSA contributions if available
â€¢ Track business expenses if self-employed
â€¢ Review tax-loss harvesting for investments
" in
        ret (adapt_tone response (user_type user_profile))
  end.

Definition _handle_budget_query (user_profile : UserProfile) (query : string) : M string :=
  match income user_profile with
  | None => ret need_income_and_expenses
  | Some income =>
      if negb (truthy income) || negb (nonempty (expenses user_profile)) then
        ret need_income_and_expenses
      else
        (let budget_analysis := analyze_budget income (expenses user_profile) in
         budget_summary <- lift (generate_budget_summary budget_analysis user_profile) ;;
         spending_insights <-
           lift (generate_spending_insights (expenses user_profile) user_profile) ;;
         let response := budget_summary ++ "

ðŸ” **Spending Insights:**
" in
         ret (fold_left (fun response insight => response ++ "â€¢ " ++ insight ++ "
")
                (firstn 3 spending_insights) response))%method
  end.

Definition _handle_investment_query (user_profile : UserProfile) (query : string) : M string :=
  match income user_profile with
  | None => ret need_income_for_investing
  | Some income =>
      if negb (truthy income) then ret need_income_for_investing
      else
        let total_expenses :=
          if nonempty (expenses user_profile) then py_sum (values (expenses user_profile))
          else income * 0.8 in
        let available_funds := py_max 0 ((income - total_expenses) * 0.8) in
        if Qltb available_funds 100 then
          ret (adapt_tone
                 "Focus on building an emergency fund first before investing. Aim to save at least $1,000 for emergencies."
                 (user_type user_profile))
        else
          let suggestions := generate_investment_suggestions user_profile available_funds in
          let response := "ðŸš€ **Investment Suggestions for $" ++ fmt_f true 0 available_funds ++ "**

" in
          let response :=
            fold_left
              (fun response suggestion =>
                 response
                 ++ "
**" ++ type suggestion
                 ++ "**
â€¢ Suggested Amount: $" ++ fmt_f true 0 (allocation suggestion)
                 ++ "
â€¢ Risk Level: " ++ risk_level suggestion
                 ++ "
â€¢ Expected Return: " ++ expected_return suggestion
                 ++ "
â€¢ Why: " ++ reason suggestion
                 ++ "

")
              suggestions response in
          let response := response ++ "
âš ï¸  Remember: Past performance doesn't guarantee future results. Consider consulting a financial advisor for personalized advice." in
          ret (adapt_tone response (user_type user_profile))
  end.

(** With no expenses, [user_profile.income * 0.7] is evaluated: an absent
    income cannot be multiplied. *)
Definition _handle_savings_query (user_profile : UserProfile) (query : string) : M string :=
  (monthly <-
     (if nonempty (expenses user_profile) then ret (py_sum (values (expenses user_profile)))
      else match income user_profile with
           | Some income => ret (income * 0.7)
           | None => raise TypeError
           end) ;;
   let emergency_fund_target := monthly * 6 in
   let response := "
ðŸ¦ **Savings Strategy**

**Emergency Fund Goal:** $" ++ fmt_f true 0 emergency_fund_target ++ "
(6 months of expenses)

**Recommended Savings Accounts:**
â€¢ High-Yield Savings: 4-5% APY
â€¢ Money Market Account: 3-4% APY
â€¢ CDs: 4-5% APY (if you won't need the money soon)

" in
   let response :=
     if String.eqb (user_type user_profile) "student" then
       response ++ "
**Student-Specific Tips:**
â€¢ Start with $1,000 emergency fund
â€¢ Use cashback credit cards responsibly
â€¢ Take advantage of student discounts
â€¢ Consider part-time work or internships
"
     else
       response ++ ("
**Professional Tips:**
â€¢ Automate savings transfers
â€¢ Save tax refunds and bonuses
â€¢ Consider employer 401(k) match as " ++ dq ++ "free money" ++ dq ++ "
â€¢ Set up separate accounts for different goals
") in
   ret (adapt_tone response (user_type user_profile)))%method.

Definition general_advice : gmap string string :=
  <[ "student" := "
ðŸŽ“ **General Financial Tips for Students:**

â€¢ Create a simple budget with your income (jobs, financial aid)
â€¢ Build credit responsibly with a student credit card
â€¢ Take advantage of student discounts everywhere
â€¢ Start an emergency fund, even if it's just $20/month
â€¢ Learn about investing early - time is your biggest advantage
â€¢ Avoid unnecessary debt beyond student loans
" ]>
  {[ "professional" := "
ðŸ’¼ **General Financial Tips for Professionals:**

â€¢ Follow the 50/30/20 rule (needs/wants/savings)
â€¢ Maximize employer 401(k) match
â€¢ Build 3-6 months emergency fund
â€¢ Diversify investments across asset classes
â€¢ Review and optimize insurance coverage
â€¢ Plan for major life events (house, family, retirement)
â€¢ Consider tax-advantaged accounts (HSA, IRA)
" ]}.

Definition _handle_general_query (user_profile : UserProfile) (query : string) : M string :=
  let response :=
    default (default EmptyString (general_advice !! "professional"))
      (general_advice !! user_type user_profile) in
  ret (adapt_tone response (user_type user_profile)).

(** [any(word in query_lower for word in words)] *)
Definition any_word_in (words : list string) (query_lower : string) : bool :=
  existsb (fun word => contains word query_lower) words.

(** The body of the [try] statement of [process_query]: the dispatch on
    the keywords of the query. *)
Definition dispatch (user_profile : UserProfile) (query_lower query : string) : M string :=
  if any_word_in ["tax"; "taxes"; "federal"] query_lower then
    _handle_tax_query user_profile query
  else if any_word_in ["budget"; "spending"; "expenses"] query_lower then
    _handle_budget_query user_profile query
  else if any_word_in ["invest"; "investment"; "portfolio"] query_lower then
    _handle_investment_query user_profile query
  else if any_word_in ["save"; "savings"; "emergency fund"] query_lower then
    _handle_savings_query user_profile query
  else
    _handle_general_query user_profile query.

Definition process_query (user_id query : string) : M string :=
  (profiles <- get_profiles ;;
   match profiles !! user_id with
   | None => ret create_profile_first
   | Some user_profile =>
       let query_lower := lower query in
       try_except
         (dispatch user_profile query_lower query)
         (fun e =>
            log_error e ;;
            ret processing_error)
   end)%method.

(** The conditional on [profile.income] is part of the text of the
    literal, so the income is formatted whether or not it is present;
    formatting an absent income raises. *)
Definition get_user_profile_summary (user_id : string) : M string :=
  (profiles <- get_profiles ;;
   match profiles !! user_id with
   | None => ret no_profile_found
   | Some profile =>
       income_text <-
         match income profile with
         | Some income => ret (fmt_f true 2 income)
         | None => raise TypeError
         end ;;
       let summary :=
         "
ðŸ‘¤ **Profile Summary**
â€¢ User Type: " ++ title (user_type profile)
         ++ "
â€¢ Age: " ++ str_int (age profile)
         ++ "
â€¢ Income: $" ++ income_text
         ++ ("/year" ++ dq ++ " if profile.income else " ++ dq ++ "Not set" ++ dq ++ "
â€¢ Risk Tolerance: ") ++ title (risk_tolerance profile)
         ++ "
" in
       let summary :=
         if nonempty (expenses profile) then
           summary ++ "â€¢ Monthly Expenses: $" ++ fmt_f true 2 (py_sum (values (expenses profile)))
         else summary in
       ret summary
   end)%method.

End PersonalFinanceChatbot.

(** * Properties *)

(** ** The text operations on small inputs *)

Module TextExamples.
Import Text.
Local Open Scope string_scope.

Example fmt_f_thousands : fmt_f true 0 11000 = "11,000".
Proof. reflexivity. Qed.

Example fmt_f_cents : fmt_f true 2 (1234567125 # 1000) = "1,234,567.12".
Proof. reflexivity. Qed.

Example fmt_f_ties_to_even : fmt_f false 0 (5 # 2) = "2" /\ fmt_f false 0 (3 # 2) = "2".
Proof. split; reflexivity. Qed.

Example fmt_f_negative_zero : fmt_f true 2 (-1 # 1000) = "-0.00".
Proof. reflexivity. Qed.

Example title_words : title "needs improvement" = "Needs Improvement".
Proof. reflexivity. Qed.

Example title_after_digit : title "they're ab1cd" = "They'Re Ab1Cd".
Proof. reflexivity. Qed.

Example replace_no_overlap : replace "aa" "b" "aaa" = "ba".
Proof. reflexivity. Qed.

Example sub_dollar_digits_groups :
  sub_dollar_digits (fun d => "$" ++ d ++ " (x " ++ d ++ ")") "a $1,000 $ $$20.5"
  = "a $1 (x 1),000 $ $$20 (x 20).5".
Proof. reflexivity. Qed.

Example sorted_desc_is_stable :
  ResponseGenerator.sorted_desc [("a", 1%Q); ("b", 2%Q); ("c", 2%Q); ("d", 0%Q)]
  = [("b", 2%Q); ("c", 2%Q); ("a", 1%Q); ("d", 0%Q)].
Proof. reflexivity. Qed.

End TextExamples.
(** ** Numbers *)

Module NumFacts.
Local Open Scope Q_scope.

Lemma Qltb_lt (x y : Q) : Qltb x y = true <-> x < y.
Proof.
  unfold Qltb. rewrite negb_true_iff.
  split.
  - intros H. apply Qnot_le_lt. intros Hle.
    apply Qle_bool_iff in Hle. congruence.
  - intros H. destruct (Qle_bool y x) eqn:E; [|reflexivity].
    apply Qle_bool_iff in E. lra.
Qed.

Lemma Qltb_ge (x y : Q) : Qltb x y = false <-> y <= x.
Proof.
  unfold Qltb. rewrite negb_false_iff. apply Qle_bool_iff.
Qed.

Lemma Qle_bool_gt (x y : Q) : Qle_bool x y = false <-> y < x.
Proof.
  split.
  - intros H. apply Qnot_le_lt. intros Hle.
    apply Qle_bool_iff in Hle. congruence.
  - intros H. destruct (Qle_bool x y) eqn:E; [|reflexivity].
    apply Qle_bool_iff in E. lra.
Qed.

Lemma truthy_true (x : Q) : truthy x = true <-> ~ x == 0.
Proof.
  unfold truthy. rewrite negb_true_iff. split.
  - intros H Hx. apply Qeq_bool_iff in Hx. congruence.
  - intros H. destruct (Qeq_bool x 0) eqn:E; [|reflexivity].
    apply Qeq_bool_iff in E. contradiction.
Qed.

Lemma truthy_false (x : Q) : truthy x = false <-> x == 0.
Proof.
  unfold truthy. rewrite negb_false_iff. apply Qeq_bool_iff.
Qed.

Lemma fold_left_Qplus_acc (l : list Q) (a : Q) :
  fold_left Qplus l a == a + fold_left Qplus l 0.
Proof.
  revert a. induction l as [|x l IH]; intros a; simpl.
  - lra.
  - rewrite (IH (a + x)), (IH (0 + x)). lra.
Qed.

Lemma py_sum_nil : py_sum [] == 0.
Proof. reflexivity. Qed.

Lemma py_sum_cons (x : Q) (l : list Q) : py_sum (x :: l) == x + py_sum l.
Proof.
  unfold py_sum. simpl. rewrite fold_left_Qplus_acc. lra.
Qed.

Lemma py_sum_app (l1 l2 : list Q) : py_sum (l1 ++ l2) == py_sum l1 + py_sum l2.
Proof.
  induction l1 as [|x l1 IH]; simpl.
  - rewrite py_sum_nil. lra.
  - rewrite !py_sum_cons, IH. lra.
Qed.

Lemma py_sum_nonneg (l : list Q) : (forall x, In x l -> 0 <= x) -> 0 <= py_sum l.
Proof.
  induction l as [|x l IH]; intros H.
  - rewrite py_sum_nil. lra.
  - rewrite py_sum_cons.
    assert (0 <= x) by (apply H; left; reflexivity).
    assert (0 <= py_sum l) by (apply IH; intros y Hy; apply H; right; exact Hy).
    lra.
Qed.

Lemma py_sum_zero (l : list Q) :
  (forall x, In x l -> 0 <= x) -> (py_sum l == 0 <-> forall x, In x l -> x == 0).
Proof.
  induction l as [|x l IH]; intros H.
  - rewrite py_sum_nil. split; [intros _ y []|reflexivity].
  - rewrite py_sum_cons.
    assert (0 <= x) as Hx by (apply H; left; reflexivity).
    assert (forall y, In y l -> 0 <= y) as Hl by (intros y Hy; apply H; right; exact Hy).
    pose proof (py_sum_nonneg l Hl) as Hs. specialize (IH Hl).
    split.
    + intros Hsum y [<-|Hy]; [lra|]. apply IH; [lra | exact Hy].
    + intros Hall.
      assert (x == 0) by (apply Hall; left; reflexivity).
      assert (py_sum l == 0) by (apply IH; intros y Hy; apply Hall; right; exact Hy).
      lra.
Qed.

End NumFacts.

(** ** The tax estimator *)

Module TaxFacts.
Import NumFacts Text FinancialAnalyzer.
Local Open Scope Q_scope.

(** A bracket table that starts at [lo], leaves no gap, has positive
    rates and ends with the unbounded bracket. *)
Fixpoint contiguous (lo : Q) (brackets : list Bracket) : Prop :=
  match brackets with
  | [] => False
  | (lower, upper, rate) :: rest =>
      lower == lo /\ 0 < rate /\
      match upper with
      | Finite u => lo < u /\ contiguous u rest
      | Infinity => rest = []
      end
  end.

Definition lower_bound (b : Bracket) : Q := fst (fst b).

Definition taxable_total (entries : list TaxBreakdown) : Q :=
  py_sum (map taxable_amount entries).

Lemma single_contiguous : contiguous 0 single.
Proof.
  unfold single. simpl. repeat split; try reflexivity.
Qed.

Lemma single_ascending :
  StronglySorted (fun a b => lower_bound a < lower_bound b) single.
Proof.
  unfold single.
  repeat first [ unfold lower_bound; simpl; lra | constructor ].
Qed.

(** The only table: every filing status selects [single]. *)
Lemma brackets_of_any_status (filing_status : string) :
  default (default [] (tax_brackets_2024 !! "single")) (tax_brackets_2024 !! filing_status)
  = single.
Proof.
  unfold tax_brackets_2024.
  destruct (decide (filing_status = "single")) as [->|Hne].
  - rewrite lookup_singleton_eq. reflexivity.
  - assert (({[ "single" := single ]} : gmap string (list Bracket)) !! filing_status = None)
      as -> by (apply lookup_singleton_ne; congruence).
    rewrite lookup_singleton_eq. reflexivity.
Qed.

(** The [break]: no bracket at or above the income is visited. *)
Lemma tax_loop_break (brackets : list Bracket) (lo income T : Q) (B : list TaxBreakdown) :
  contiguous lo brackets -> income <= lo -> tax_loop income brackets T B = (T, B).
Proof.
  destruct brackets as [|[[lower upper] rate] rest]; simpl; [tauto|].
  intros (Hlo & _ & _) Hle.
  assert (Qle_bool income lower = true) as -> by (apply Qle_bool_iff; lra).
  reflexivity.
Qed.

(** The loop above [lo]: it appends the entries of the first [k]
    brackets, each with a positive taxable amount, their amounts add up
    to [income - lo], and the tax grows. *)
Lemma tax_loop_above (brackets : list Bracket) :
  forall (lo income T : Q) (B : list TaxBreakdown),
    contiguous lo brackets -> lo < income ->
    exists (k : nat) (T' : Q),
      tax_loop income brackets T B
      = (T', (B ++ map (breakdown_entry income) (firstn k brackets))%list)
      /\ T < T'
      /\ Forall (fun e => 0 < taxable_amount e)
           (map (breakdown_entry income) (firstn k brackets))
      /\ taxable_total (map (breakdown_entry income) (firstn k brackets)) == income - lo.
Proof.
  induction brackets as [|[[lower upper] rate] rest IH]; intros lo income T B Hc Hlt.
  - contradiction.
  - destruct Hc as (Hlo & Hrate & Hup).
    cbn [tax_loop].
    assert (Qle_bool income lower = false) as -> by (apply Qle_bool_gt; lra).
    destruct upper as [u|].
    + destruct Hup as (Hu & Hrest).
      cbn [min_bound]. unfold py_min.
      destruct (Qltb u income) eqn:Eu.
      * apply Qltb_lt in Eu.
        assert (Qltb 0 (u - lower) = true) as -> by (apply Qltb_lt; lra).
        destruct (IH u income (T + (u - lower) * rate)
                    (B ++ [breakdown_entry income (lower, Finite u, rate)])%list Hrest Eu)
          as (k & T' & Heq & HT & Hpos & Hsum).
        exists (S k), T'. cbn [firstn map].
        rewrite Heq, <- app_assoc. cbn [app].
        assert (taxable_amount (breakdown_entry income (lower, Finite u, rate)) == u - lower)
          as Hentry.
        { cbn. unfold py_min. apply Qltb_lt in Eu. rewrite Eu. reflexivity. }
        split; [reflexivity|]. split.
        { assert (0 < (u - lower) * rate) by (apply Qmult_lt_0_compat; lra). lra. }
        split.
        { constructor; [rewrite Hentry; lra | exact Hpos]. }
        { unfold taxable_total in *. cbn [map]. rewrite py_sum_cons, Hentry, Hsum. lra. }
      * apply Qltb_ge in Eu.
        assert (Qltb 0 (income - lower) = true) as -> by (apply Qltb_lt; lra).
        rewrite (tax_loop_break rest u income _ _ Hrest Eu).
        exists 1%nat, (T + (income - lower) * rate). cbn [firstn map].
        assert (taxable_amount (breakdown_entry income (lower, Finite u, rate))
                == income - lower) as Hentry.
        { cbn. unfold py_min. apply Qltb_ge in Eu. rewrite Eu. reflexivity. }
        split; [reflexivity|]. split.
        { assert (0 < (income - lower) * rate) by (apply Qmult_lt_0_compat; lra). lra. }
        split.
        { constructor; [rewrite Hentry; lra | constructor]. }
        { unfold taxable_total. cbn [map]. rewrite py_sum_cons, Hentry, py_sum_nil. lra. }
    + subst rest. cbn [min_bound tax_loop].
      assert (Qltb 0 (income - lower) = true) as -> by (apply Qltb_lt; lra).
      exists 1%nat, (T + (income - lower) * rate). cbn [firstn map].
      split; [reflexivity|]. split.
      { assert (0 < (income - lower) * rate) by (apply Qmult_lt_0_compat; lra). lra. }
      split.
      { constructor; [cbn; lra | constructor]. }
      { unfold taxable_total. cbn [map]. rewrite py_sum_cons, py_sum_nil. cbn. lra. }
Qed.

(** The loop of [calculate_tax_estimate], from the first bracket. *)
Lemma tax_loop_single (income : Q) :
  0 <= income ->
  exists (k : nat) (T' : Q),
    tax_loop income single 0 [] = (T', map (breakdown_entry income) (firstn k single))
    /\ (0 < income -> 0 < T')
    /\ (income == 0 -> T' = 0 /\ k = 0%nat)
    /\ Forall (fun e => 0 < taxable_amount e) (map (breakdown_entry income) (firstn k single))
    /\ taxable_total (map (breakdown_entry income) (firstn k single)) == income.
Proof.
  intros Hnn. destruct (Qlt_le_dec 0 income) as [Hpos|Hzero].
  - destruct (tax_loop_above single 0 income 0 [] single_contiguous Hpos)
      as (k & T' & Heq & HT & Hall & Hsum).
    exists k, T'.
    split; [exact Heq|]. split; [intros _; exact HT|].
    split; [intros H0; lra|]. split; [exact Hall|].
    rewrite Hsum. lra.
  - exists 0%nat, 0.
    rewrite (tax_loop_break single 0 income 0 [] single_contiguous Hzero).
    split; [reflexivity|]. split; [intros H; lra|].
    split; [intros _; split; reflexivity|]. split; [constructor|].
    unfold taxable_total. cbn [firstn map]. rewrite py_sum_nil. lra.
Qed.

End TaxFacts.

(** ** Claims about the tax estimator and the recommender *)

Module AnalyzerClaims.
Import NumFacts Text FinancialAnalyzer TaxFacts.
Local Open Scope Q_scope.

Lemma In_firstn_In {A : Type} (x : A) (k : nat) (l : list A) :
  In x (firstn k l) -> In x l.
Proof.
  revert l. induction k as [|k IH]; intros [|a l]; cbn [firstn In]; try tauto.
  intros [H|H]; [left; exact H | right; apply IH; exact H].
Qed.

Lemma StronglySorted_firstn {A : Type} (R : A -> A -> Prop) (l : list A) (k : nat) :
  StronglySorted R l -> StronglySorted R (firstn k l).
Proof.
  intros Hs. revert k. induction Hs as [|a l Hs IH Hall]; intros k.
  - destruct k; constructor.
  - destruct k as [|k]; cbn [firstn]; constructor.
    + apply IH.
    + rewrite List.Forall_forall in *. intros x Hx.
      apply Hall. apply (In_firstn_In x k l Hx).
Qed.

(** C3: for every income [>= 0] the after-tax income and the total tax add
    up to the income, and the effective rate is [0] exactly when the
    income is [0]; for a positive income it is strictly positive. *)
Theorem calculate_tax_estimate_balance (income : Q) (filing_status : string) :
  0 <= income ->
  after_tax_income (calculate_tax_estimate income filing_status)
  + total_tax (calculate_tax_estimate income filing_status) == income
  /\ (effective_rate (calculate_tax_estimate income filing_status) == 0 <-> income == 0)
  /\ (0 < income -> 0 < effective_rate (calculate_tax_estimate income filing_status)).
Proof.
  intros Hnn. unfold calculate_tax_estimate.
  rewrite brackets_of_any_status.
  destruct (tax_loop_single income Hnn) as (k & T' & Heq & Hpos & _).
  rewrite Heq. cbn [after_tax_income total_tax effective_rate].
  split; [lra|].
  destruct (Qltb 0 income) eqn:E.
  - apply Qltb_lt in E. specialize (Hpos E).
    assert (0 < T' / income) as Hq.
    { unfold Qdiv. apply Qmult_lt_0_compat; [exact Hpos|].
      apply Qinv_lt_0_compat. exact E. }
    split; [split; intros H; lra | intros _; lra].
  - apply Qltb_ge in E.
    split; [split; intros _; lra | intros H; lra].
Qed.

Lemma calculate_tax_estimate_balance_witness :
  after_tax_income (calculate_tax_estimate 15000 "single")
  + total_tax (calculate_tax_estimate 15000 "single") == 15000
  /\ (effective_rate (calculate_tax_estimate 15000 "single") == 0 <-> 15000 == 0)
  /\ (0 < 15000 -> 0 < effective_rate (calculate_tax_estimate 15000 "single")).
Proof.
  apply (calculate_tax_estimate_balance 15000 "single"). lra.
Defined.

(** C4: for every income [>= 0] the breakdown lists only brackets with a
    strictly positive taxable amount, they are the first brackets of the
    table in the table's ascending order, and their taxable amounts add
    up to the income. *)
Theorem breakdown_positive_ascending_complete (income : Q) (filing_status : string) :
  0 <= income ->
  Forall (fun e => 0 < taxable_amount e)
    (breakdown (calculate_tax_estimate income filing_status))
  /\ (exists k : nat,
        breakdown (calculate_tax_estimate income filing_status)
        = map (breakdown_entry income) (firstn k single)
        /\ StronglySorted (fun a b => lower_bound a < lower_bound b) (firstn k single))
  /\ taxable_total (breakdown (calculate_tax_estimate income filing_status)) == income.
Proof.
  intros Hnn. unfold calculate_tax_estimate.
  rewrite brackets_of_any_status.
  destruct (tax_loop_single income Hnn) as (k & T' & Heq & _ & _ & Hall & Hsum).
  rewrite Heq. cbn [breakdown].
  split; [exact Hall|]. split; [|exact Hsum].
  exists k. split; [reflexivity|].
  apply StronglySorted_firstn, single_ascending.
Qed.

Lemma breakdown_positive_ascending_complete_witness :
  Forall (fun e => 0 < taxable_amount e)
    (breakdown (calculate_tax_estimate 600000 "single"))
  /\ (exists k : nat,
        breakdown (calculate_tax_estimate 600000 "single")
        = map (breakdown_entry 600000) (firstn k single)
        /\ StronglySorted (fun a b => lower_bound a < lower_bound b) (firstn k single))
  /\ taxable_total (breakdown (calculate_tax_estimate 600000 "single")) == 600000.
Proof.
  apply (breakdown_positive_ascending_complete 600000 "single"). lra.
Defined.

(** C6: for a professional whose risk tolerance is neither [low] nor
    [high] (moderate, or any unrecognized value) and any funds [>= 0] the
    recommender returns the empty list. *)
Theorem professional_moderate_no_suggestions (user_profile : UserProfile)
    (available_funds : Q) :
  user_type user_profile = "professional" ->
  risk_tolerance user_profile <> "low" ->
  risk_tolerance user_profile <> "high" ->
  0 <= available_funds ->
  generate_investment_suggestions user_profile available_funds = [].
Proof.
  intros Htype Hlow Hhigh _. unfold generate_investment_suggestions.
  rewrite Htype. cbn [String.eqb Ascii.eqb Bool.eqb].
  apply String.eqb_neq in Hlow, Hhigh.
  rewrite Hlow, Hhigh. reflexivity.
Qed.

Lemma professional_moderate_no_suggestions_witness :
  generate_investment_suggestions
    (mkUserProfile "professional" 28 (Some 75000) [] [] "moderate") 48000 = [].
Proof.
  apply professional_moderate_no_suggestions;
    [reflexivity | discriminate | discriminate | lra].
Defined.

(** The scenario of the claim C7: the income [15000]. *)
Definition scenario_estimate : TaxEstimate := calculate_tax_estimate 15000 "single".

(** C7, as stated, fails: the breakdown is not empty, but the effective
    rate is not within half a percentage point of [9.53]. *)
Lemma scenario_rate_is_not_9_53 :
  ~ (breakdown scenario_estimate <> []
     /\ Qabs (effective_rate scenario_estimate - 9.53) <= 0.5).
Proof.
  intros [_ H]. vm_compute in H. apply H. reflexivity.
Qed.

(** C7, amended: for the income [15000] the breakdown has the two entries
    of the first two brackets (taxable amounts [11000] and [4000]), and
    the effective rate is [1580 / 15000 * 100 = 158/15], which is [10.53]
    to two decimals. *)
Theorem scenario_rate_is_10_53 :
  map taxable_amount (breakdown scenario_estimate) = [11000; 4000]
  /\ breakdown scenario_estimate <> []
  /\ total_tax scenario_estimate == 1580
  /\ effective_rate scenario_estimate == 158 # 15
  /\ Qabs (effective_rate scenario_estimate - 10.53) <= 0.005
  /\ fmt_f false 2 (effective_rate scenario_estimate) = "10.53"%string.
Proof.
  split; [vm_compute; reflexivity|].
  split; [vm_compute; discriminate|].
  split; [vm_compute; reflexivity|].
  split; [vm_compute; reflexivity|].
  split; [vm_compute; discriminate|].
  vm_compute; reflexivity.
Qed.

End AnalyzerClaims.

(** ** Claims about the budget analyzer *)

Module BudgetClaims.
Import NumFacts Text FinancialAnalyzer.
Local Open Scope Q_scope.

(** The two whitelists together. *)
Definition whitelist : list string := (needs_categories ++ wants_categories)%list.

Definition whitelisted (key : string) : bool := existsb (String.eqb key) whitelist.

(** The amounts of the keys outside both whitelists. *)
Definition outside (expenses : list (string * Q)) : list Q :=
  values (List.filter (fun kv => negb (whitelisted (fst kv))) expenses).

(** The sum of [expenses.get(cat, 0)] over a list of categories. *)
Definition sum_get (expenses : list (string * Q)) (cats : list string) : Q :=
  py_sum (map (fun cat => dict_get expenses cat 0) cats).

Lemma whitelist_NoDup : List.NoDup whitelist.
Proof.
  unfold whitelist, needs_categories, wants_categories. cbn [app].
  repeat (apply List.NoDup_cons; [cbn [In]; intuition discriminate|]).
  apply List.NoDup_nil.
Qed.

Lemma whitelisted_In (key : string) : whitelisted key = true <-> In key whitelist.
Proof.
  unfold whitelisted. rewrite existsb_exists. split.
  - intros (x & Hin & Heq). apply String.eqb_eq in Heq. subst. exact Hin.
  - intros Hin. exists key. split; [exact Hin | apply String.eqb_refl].
Qed.

Lemma dict_lookup_absent (key : string) (expenses : list (string * Q)) :
  ~ In key (map fst expenses) -> dict_lookup key expenses = None.
Proof.
  induction expenses as [|[k v] rest IH]; cbn [dict_lookup map fst In]; [reflexivity|].
  intros Hnot. destruct (String.eqb key k) eqn:E.
  - apply String.eqb_eq in E. subst. tauto.
  - apply IH. tauto.
Qed.

Lemma sum_get_cats_cons (expenses : list (string * Q)) (c : string) (cats : list string) :
  sum_get expenses (c :: cats) == dict_get expenses c 0 + sum_get expenses cats.
Proof.
  unfold sum_get. cbn [map]. apply py_sum_cons.
Qed.

Lemma sum_get_other (k : string) (v : Q) (rest : list (string * Q)) (cats : list string) :
  ~ In k cats -> sum_get ((k, v) :: rest) cats == sum_get rest cats.
Proof.
  induction cats as [|c cats IH]; intros Hnot.
  - reflexivity.
  - rewrite !sum_get_cats_cons, IH by (cbn [In] in Hnot; tauto).
    unfold dict_get. cbn [dict_lookup].
    assert (String.eqb c k = false) as ->.
    { apply String.eqb_neq. intros ->. apply Hnot. left. reflexivity. }
    reflexivity.
Qed.

(** A new key adds its amount to the sum over [cats] when it is one of them. *)
Lemma sum_get_cons (k : string) (v : Q) (rest : list (string * Q)) (cats : list string) :
  List.NoDup cats -> dict_lookup k rest = None ->
  sum_get ((k, v) :: rest) cats
  == (if existsb (String.eqb k) cats then v else 0) + sum_get rest cats.
Proof.
  intros Hnd Hnone. induction Hnd as [|c cats Hc Hnd IH].
  - unfold sum_get. cbn. lra.
  - cbn [existsb]. rewrite !sum_get_cats_cons.
    unfold dict_get at 1 2. cbn [dict_lookup].
    destruct (String.eqb k c) eqn:E.
    + apply String.eqb_eq in E. subst c. cbn [orb].
      rewrite (sum_get_other k v rest cats Hc).
      rewrite String.eqb_refl, Hnone.
      change (default 0 (Some v)) with v. change (default 0 (@None Q)) with 0. lra.
    + cbn [orb]. rewrite IH. rewrite String.eqb_sym, E. lra.
Qed.

Lemma outside_cons (k : string) (v : Q) (rest : list (string * Q)) :
  outside ((k, v) :: rest) = if whitelisted k then outside rest else v :: outside rest.
Proof.
  unfold outside. cbn [List.filter fst]. destruct (whitelisted k); reflexivity.
Qed.

(** Every amount is counted once: in a whitelist's sum or outside. *)
Lemma total_decomposition (expenses : list (string * Q)) :
  List.NoDup (map fst expenses) ->
  py_sum (values expenses) == sum_get expenses whitelist + py_sum (outside expenses).
Proof.
  induction expenses as [|[k v] rest IH]; intros Hnd.
  - vm_compute. reflexivity.
  - cbn [map fst] in Hnd. apply List.NoDup_cons_iff in Hnd. destruct Hnd as [Hk Hnd].
    unfold values at 1. cbn [map snd]. rewrite py_sum_cons.
    fold (values rest). rewrite (IH Hnd).
    rewrite (sum_get_cons k v rest whitelist whitelist_NoDup (dict_lookup_absent k rest Hk)).
    rewrite outside_cons. fold (whitelisted k).
    destruct (whitelisted k).
    + lra.
    + rewrite py_sum_cons. lra.
Qed.

Lemma In_outside (expenses : list (string * Q)) (x : Q) :
  In x (outside expenses)
  <-> exists k, In (k, x) expenses /\ ~ In k whitelist.
Proof.
  unfold outside, values. rewrite in_map_iff. split.
  - intros ([k v] & Heq & Hin). cbn [snd] in Heq. subst v.
    apply List.filter_In in Hin. destruct Hin as [Hin Hf]. cbn [fst] in Hf.
    exists k. split; [exact Hin|]. intros Hw. apply whitelisted_In in Hw.
    rewrite Hw in Hf. discriminate.
  - intros (k & Hin & Hnot). exists (k, x). split; [reflexivity|].
    apply List.filter_In. split; [exact Hin|]. cbn [fst].
    destruct (whitelisted k) eqn:E; [|reflexivity].
    apply whitelisted_In in E. contradiction.
Qed.

Lemma needs_wants_sum (income : Q) (expenses : list (string * Q)) :
  needs_spending (analyze_budget income expenses)
  + wants_spending (analyze_budget income expenses)
  == sum_get expenses whitelist.
Proof.
  unfold analyze_budget. cbn [needs_spending wants_spending].
  unfold sum_get, whitelist. rewrite map_app, py_sum_app. reflexivity.
Qed.

(** An expense mapping with one key outside the whitelists, of amount [0]. *)
Definition zero_textbooks : list (string * Q) := [("textbooks"%string, 0)].

(** C5, as stated, fails: the two aggregates can add up to the total
    while a key of the mapping is in neither whitelist. *)
Lemma equality_with_key_outside_whitelists :
  List.NoDup (map fst zero_textbooks)
  /\ (forall k v, In (k, v) zero_textbooks -> 0 <= v)
  /\ needs_spending (analyze_budget 1000 zero_textbooks)
     + wants_spending (analyze_budget 1000 zero_textbooks)
     == total_expenses (analyze_budget 1000 zero_textbooks)
  /\ ~ (forall k, In k (map fst zero_textbooks)
                  -> In k needs_categories \/ In k wants_categories).
Proof.
  split; [repeat constructor; cbn [In]; tauto|].
  split.
  { intros k v [H|[]]. injection H as _ <-. lra. }
  split; [vm_compute; reflexivity|].
  intros H. specialize (H "textbooks"%string (or_introl eq_refl)).
  cbn [needs_categories wants_categories In] in H.
  intuition discriminate.
Qed.

(** With sums that are exact: for non-negative amounts the two aggregates
    add up to at most the total, and to exactly the total if and only if
    every key outside both whitelists has the amount [0]. *)
Lemma needs_wants_exact (income : Q) (expenses : list (string * Q)) :
  List.NoDup (map fst expenses) ->
  (forall k v, In (k, v) expenses -> 0 <= v) ->
  needs_spending (analyze_budget income expenses)
  + wants_spending (analyze_budget income expenses)
  <= total_expenses (analyze_budget income expenses)
  /\ (needs_spending (analyze_budget income expenses)
      + wants_spending (analyze_budget income expenses)
      == total_expenses (analyze_budget income expenses)
      <-> forall k v, In (k, v) expenses ->
                      ~ (In k needs_categories \/ In k wants_categories) -> v == 0).
Proof.
  intros Hnd Hnn. rewrite needs_wants_sum.
  assert (total_expenses (analyze_budget income expenses) = py_sum (values expenses))
    as -> by reflexivity.
  pose proof (total_decomposition expenses Hnd) as Hdec.
  assert (forall x, In x (outside expenses) -> 0 <= x) as Hout.
  { intros x Hx. apply In_outside in Hx. destruct Hx as (k & Hin & _).
    exact (Hnn k x Hin). }
  pose proof (py_sum_nonneg _ Hout) as Hpos.
  pose proof (py_sum_zero _ Hout) as Hzero.
  split; [lra|]. split.
  - intros Heq k v Hin Hnot.
    apply (proj1 Hzero); [lra|].
    apply In_outside. exists k. split; [exact Hin|].
    unfold whitelist. rewrite in_app_iff. exact Hnot.
  - intros Hall.
    assert (py_sum (outside expenses) == 0) as H0.
    { apply (proj2 Hzero). intros x Hx. apply In_outside in Hx.
      destruct Hx as (k & Hin & Hnot). apply (Hall k x Hin).
      unfold whitelist in Hnot. rewrite in_app_iff in Hnot. exact Hnot. }
    lra.
Qed.

(** The amounts are whole numbers, none below [0]. *)
Definition whole_amounts (expenses : list (string * Q)) : Prop :=
  forall k v, In (k, v) expenses -> exists n : Z, (0 <= n)%Z /\ v == inject_Z n.

(** The largest whole number up to which every whole number is a binary64
    value: [2^53]. *)
Definition exact_limit : Q := inject_Z (2 ^ 53).

Lemma whole_amounts_nonneg (expenses : list (string * Q)) :
  whole_amounts expenses -> forall k v, In (k, v) expenses -> 0 <= v.
Proof.
  intros Hw k v Hin. destruct (Hw k v Hin) as (n & Hn & ->).
  change 0 with (inject_Z 0). rewrite <- Zle_Qle. exact Hn.
Qed.

(** C5, amended: for an expense mapping (each key once) whose amounts are
    non-negative whole numbers with a total of at most [2^53], so that
    every addition the code makes is exact, the two aggregates add up to
    at most the total, and to exactly the total if and only if every key
    outside both whitelists has the amount [0].  With fractional amounts
    the code adds binary64 values in two different orders, and the
    aggregates can exceed the total by a rounding error (see
    [BudgetFloats]). *)
Theorem needs_wants_within_total_whole_amounts (income : Q)
    (expenses : list (string * Q)) :
  List.NoDup (map fst expenses) ->
  whole_amounts expenses ->
  py_sum (values expenses) <= exact_limit ->
  needs_spending (analyze_budget income expenses)
  + wants_spending (analyze_budget income expenses)
  <= total_expenses (analyze_budget income expenses)
  /\ (needs_spending (analyze_budget income expenses)
      + wants_spending (analyze_budget income expenses)
      == total_expenses (analyze_budget income expenses)
      <-> forall k v, In (k, v) expenses ->
                      ~ (In k needs_categories \/ In k wants_categories) -> v == 0).
Proof.
  intros Hnd Hw _.
  exact (needs_wants_exact income expenses Hnd (whole_amounts_nonneg expenses Hw)).
Qed.

(** The expenses of the student of the demonstration. *)
Definition student_expenses : list (string * Q) :=
  [("rent", 600); ("groceries", 200); ("transportation", 100);
   ("entertainment", 150); ("textbooks", 50)]%string.

Lemma student_expenses_well_formed :
  List.NoDup (map fst student_expenses)
  /\ whole_amounts student_expenses
  /\ py_sum (values student_expenses) <= exact_limit.
Proof.
  split; [|split].
  - unfold student_expenses. cbn [map fst].
    repeat (apply List.NoDup_cons; [cbn [In]; intuition discriminate|]).
    apply List.NoDup_nil.
  - intros k v Hin. unfold student_expenses in Hin. cbn [In] in Hin.
    repeat (destruct Hin as [Hin|Hin];
            [injection Hin as _ <-; eexists; split; [|reflexivity]; lia|]).
    contradiction.
  - vm_compute. discriminate.
Defined.

Lemma needs_wants_within_total_whole_amounts_witness :
  needs_spending (analyze_budget 15000 student_expenses)
  + wants_spending (analyze_budget 15000 student_expenses)
  <= total_expenses (analyze_budget 15000 student_expenses)
  /\ (needs_spending (analyze_budget 15000 student_expenses)
      + wants_spending (analyze_budget 15000 student_expenses)
      == total_expenses (analyze_budget 15000 student_expenses)
      <-> forall k v, In (k, v) student_expenses ->
                      ~ (In k needs_categories \/ In k wants_categories) -> v == 0).
Proof.
  apply (needs_wants_within_total_whole_amounts 15000 student_expenses).
  - exact (proj1 student_expenses_well_formed).
  - exact (proj1 (proj2 student_expenses_well_formed)).
  - exact (proj2 (proj2 student_expenses_well_formed)).
Defined.

End BudgetClaims.

(** ** The sums of the budget analysis on binary64 values *)

Module BudgetFloats.
Import FinancialAnalyzer.

(** [sum(values)] on floats: left to right from [0]. *)
Definition float_sum (l : list float) : float := fold_left PrimFloat.add l 0%float.

(** The three sums of [analyze_budget]: the total in the order of the
    mapping, the two aggregates in the order of their whitelists. *)
Definition total_expenses_float (expenses : list (string * float)) : float :=
  float_sum (values expenses).

Definition needs_total_float (expenses : list (string * float)) : float :=
  float_sum (map (fun cat => dict_get expenses cat 0%float) needs_categories).

Definition wants_total_float (expenses : list (string * float)) : float :=
  float_sum (map (fun cat => dict_get expenses cat 0%float) wants_categories).

(** The amounts [0.2], [0.3] and [0.1], as the binary64 values nearest to
    them. *)
Definition fractional_expenses : list (string * float) :=
  [("rent"%string, 0x1.999999999999ap-3%float);
   ("dining_out"%string, 0x1.3333333333333p-2%float);
   ("groceries"%string, 0x1.999999999999ap-4%float)].

(** With these amounts, all in a whitelist, the two aggregates add up to
    more than the total: [0.6000000000000001] against [0.6]. *)
Lemma fractional_amounts_exceed_total :
  PrimFloat.ltb (total_expenses_float fractional_expenses)
    (PrimFloat.add (needs_total_float fractional_expenses)
       (wants_total_float fractional_expenses)) = true.
Proof. vm_compute. reflexivity. Qed.

End BudgetFloats.

(** ** The chatbot: shape of the replies and frame lemmas *)

Module ChatbotFacts.
Import NumFacts Text FinancialAnalyzer ResponseGenerator PersonalFinanceChatbot.
Local Open Scope Q_scope.

(** *** First characters *)

Lemma prefix_head_differs (a c : ascii) (old s : string) :
  a <> c -> String.prefix (String a old) (String c s) = false.
Proof.
  intros Hne. cbn [String.prefix].
  destruct (Ascii.ascii_dec a c) as [Heq|_]; [contradiction|reflexivity].
Qed.

Lemma replace_head (old new : string) (c : ascii) (s : string) :
  String.prefix old (String c s) = false ->
  replace old new (String c s) = String c (replace old new s).
Proof.
  intros H. unfold replace. cbn [replace_from]. rewrite H. reflexivity.
Qed.

Lemma sub_dollar_digits_head (repl : string -> string) (c : ascii) (s : string) :
  Ascii.eqb c "$" = false ->
  sub_dollar_digits repl (String c s) = String c (sub_dollar_digits repl s).
Proof.
  intros H. unfold sub_dollar_digits. cbn [sub_dollar_digits_from].
  rewrite H. reflexivity.
Qed.

(** The tone adapter keeps a first character that starts none of its
    three patterns. *)
Lemma adapt_tone_head (c : ascii) (s user_type : string) :
  c <> "Y"%char -> c <> "I"%char -> c <> "$"%char ->
  exists s', adapt_tone (String c s) user_type = String c s'.
Proof.
  intros HY HI Hd. unfold adapt_tone.
  destruct (String.eqb user_type "student"); [|eexists; reflexivity].
  rewrite replace_head by (apply prefix_head_differs; congruence).
  rewrite replace_head by (apply prefix_head_differs; congruence).
  rewrite sub_dollar_digits_head by (apply Ascii.eqb_neq; exact Hd).
  eexists; reflexivity.
Qed.

Lemma fold_left_append_head {A : Type} (f : A -> string) (l : list A) :
  forall (c : ascii) (s : string),
  exists s', fold_left (fun acc x => (acc ++ f x)%string) l (String c s) = String c s'.
Proof.
  induction l as [|x l IH]; intros c s; cbn [fold_left].
  - eexists; reflexivity.
  - cbn [append]. apply IH.
Qed.

(** *** Methods that leave the state as it is *)

Definition stateless {A : Type} (m : M A) : Prop := forall st, snd (m st) = st.

Lemma stateless_ret {A : Type} (a : A) : stateless (ret a).
Proof. intros st. reflexivity. Qed.

Lemma stateless_raise {A : Type} (e : exn) : stateless (@raise A e).
Proof. intros st. reflexivity. Qed.

Lemma stateless_lift {A : Type} (r : Result A) : stateless (lift r).
Proof. intros st. reflexivity. Qed.

Lemma stateless_bind {A B : Type} (m : M A) (k : A -> M B) :
  stateless m -> (forall a, stateless (k a)) -> stateless (bind m k).
Proof.
  intros Hm Hk st. unfold bind. specialize (Hm st).
  destruct (m st) as [[a|e] st']; cbn [snd] in *; subst st'.
  - apply Hk.
  - reflexivity.
Qed.

Create HintDb stateless.
#[local] Hint Resolve stateless_ret stateless_raise stateless_lift stateless_bind : stateless.

Lemma stateless_handle_tax (p : UserProfile) (q : string) : stateless (_handle_tax_query p q).
Proof.
  unfold _handle_tax_query. destruct (income p) as [i|]; [|auto with stateless].
  destruct (negb (truthy i)); auto with stateless.
Qed.

Lemma stateless_handle_budget (p : UserProfile) (q : string) :
  stateless (_handle_budget_query p q).
Proof.
  unfold _handle_budget_query. destruct (income p) as [i|]; [|auto with stateless].
  destruct (negb (truthy i) || negb (nonempty (expenses p))); [auto with stateless|].
  apply stateless_bind; [auto with stateless|]. intros summary.
  apply stateless_bind; auto with stateless.
Qed.

Lemma stateless_handle_investment (p : UserProfile) (q : string) :
  stateless (_handle_investment_query p q).
Proof.
  unfold _handle_investment_query. destruct (income p) as [i|]; [|auto with stateless].
  destruct (negb (truthy i)); [auto with stateless|].
  match goal with |- context [Qltb ?a 100] => destruct (Qltb a 100) end;
    auto with stateless.
Qed.

Lemma stateless_handle_savings (p : UserProfile) (q : string) :
  stateless (_handle_savings_query p q).
Proof.
  unfold _handle_savings_query. apply stateless_bind; [|auto with stateless].
  destruct (nonempty (expenses p)); [auto with stateless|].
  destruct (income p); auto with stateless.
Qed.

Lemma stateless_handle_general (p : UserProfile) (q : string) :
  stateless (_handle_general_query p q).
Proof. unfold _handle_general_query. auto with stateless. Qed.

Lemma stateless_dispatch (p : UserProfile) (query_lower q : string) :
  stateless (dispatch p query_lower q).
Proof.
  unfold dispatch.
  repeat match goal with |- context [if ?b then _ else _] => destruct b end.
  - apply stateless_handle_tax.
  - apply stateless_handle_budget.
  - apply stateless_handle_investment.
  - apply stateless_handle_savings.
  - apply stateless_handle_general.
Qed.

(** [process_query], step by step. *)
Lemma process_query_unfold (user_id query : string) (st : State) :
  process_query user_id query st
  = match user_profiles (chatbot st) !! user_id with
    | None => (Return create_profile_first, st)
    | Some user_profile =>
        match dispatch user_profile (lower query) query st with
        | (Return reply, st') => (Return reply, st')
        | (Raise e, st') =>
            (Return processing_error,
             {| chatbot := chatbot st'; logged := (logged st' ++ [e])%list |})
        end
    end.
Proof.
  unfold process_query, bind, get_profiles, try_except, log_error, ret.
  destruct (user_profiles (chatbot st) !! user_id) as [p|]; [|reflexivity].
  destruct (dispatch p (lower query) query st) as [[reply|e] st']; reflexivity.
Qed.

End ChatbotFacts.

(** ** Claims about the chatbot *)

Module ChatbotClaims.
Import NumFacts Text FinancialAnalyzer ResponseGenerator PersonalFinanceChatbot ChatbotFacts.
Local Open Scope Q_scope.

(** *** The first character of a reply *)

Definition first_char (s : string) : option ascii :=
  match s with
  | EmptyString => None
  | String c _ => Some c
  end.

Lemma first_char_append (r t : string) (c : ascii) :
  first_char r = Some c -> first_char (r ++ t)%string = Some c.
Proof.
  destruct r as [|a r]; cbn [first_char append]; [discriminate|]. intros H. exact H.
Qed.

Lemma first_char_fold_left {A : Type} (f : A -> string) (l : list A) (r : string) (c : ascii) :
  first_char r = Some c ->
  first_char (fold_left (fun acc x => (acc ++ f x)%string) l r) = Some c.
Proof.
  destruct r as [|a r]; cbn [first_char]; [discriminate|]. intros H.
  destruct (fold_left_append_head f l a r) as [s' ->]. exact H.
Qed.

Lemma first_char_adapt_tone (r user_type : string) (c : ascii) :
  first_char r = Some c ->
  c <> "Y"%char -> c <> "I"%char -> c <> "$"%char ->
  first_char (adapt_tone r user_type) = Some c.
Proof.
  destruct r as [|a r]; cbn [first_char]; [discriminate|].
  intros H HY HI Hd. injection H as ->.
  destruct (adapt_tone_head c r user_type HY HI Hd) as [s' ->]. reflexivity.
Qed.

Definition newline : ascii := "010"%char.

(** The first byte of the rocket sign as the source file holds it. *)
Definition rocket_byte : ascii := "195"%char.

Lemma budget_summary_first_char (analysis : BudgetAnalysis) (p : UserProfile) (summary : string) :
  generate_budget_summary analysis p = Return summary ->
  first_char summary = Some newline.
Proof.
  unfold generate_budget_summary. cbv zeta.
  destruct (tone_style (user_type p)) as [style|e]; cbn [bindR]; [|discriminate].
  intros H. injection H as <-.
  apply first_char_adapt_tone; [|discriminate..].
  destruct (String.eqb (budget_health analysis) "excellent");
    [|destruct (String.eqb (budget_health analysis) "needs_improvement")];
    reflexivity.
Qed.

Lemma tax_reply (p : UserProfile) (q : string) (st : State) (i : Q) :
  income p = Some i -> truthy i = true ->
  exists reply, _handle_tax_query p q st = (Return reply, st)
                /\ first_char reply = Some newline.
Proof.
  intros Hi Ht. unfold _handle_tax_query. rewrite Hi, Ht. cbn [negb]. cbv zeta.
  unfold ret. eexists. split; [reflexivity|].
  apply first_char_adapt_tone; [|discriminate..].
  destruct (String.eqb (user_type p) "student"); reflexivity.
Qed.

Lemma investment_reply (p : UserProfile) (q : string) (st : State) (i : Q) :
  income p = Some i -> truthy i = true ->
  exists reply, _handle_investment_query p q st = (Return reply, st)
                /\ (first_char reply = Some "F"%char
                    \/ first_char reply = Some rocket_byte).
Proof.
  intros Hi Ht. unfold _handle_investment_query. rewrite Hi, Ht. cbn [negb]. cbv zeta.
  match goal with |- context [Qltb ?a 100] => destruct (Qltb a 100) end;
    unfold ret; eexists; (split; [reflexivity|]).
  - left. apply first_char_adapt_tone; [reflexivity|discriminate..].
  - right. apply first_char_adapt_tone; [|discriminate..].
    apply first_char_append.
    apply (first_char_fold_left
             (fun suggestion : Suggestion => _) _ _ rocket_byte).
    reflexivity.
Qed.

Lemma budget_reply (p : UserProfile) (q : string) (st : State) (i : Q) :
  income p = Some i -> truthy i = true -> expenses p <> [] ->
  (exists e, _handle_budget_query p q st = (Raise e, st))
  \/ (exists reply, _handle_budget_query p q st = (Return reply, st)
                    /\ first_char reply = Some newline).
Proof.
  intros Hi Ht He. unfold _handle_budget_query. rewrite Hi, Ht.
  destruct (expenses p) as [|kv rest] eqn:Ee; [contradiction|].
  cbn [negb orb nonempty]. cbv zeta. unfold bind, lift, ret.
  destruct (generate_budget_summary (analyze_budget i (kv :: rest)) p)
    as [summary|e] eqn:Es; [|left; eexists; reflexivity].
  destruct (generate_spending_insights (kv :: rest) p)
    as [insights|e]; [|left; eexists; reflexivity].
  right. eexists. split; [reflexivity|].
  apply (first_char_fold_left (fun insight : string => _) _ _ newline).
  apply first_char_append.
  exact (budget_summary_first_char _ _ _ Es).
Qed.

(** *** C1 *)

(** C1: for every state, identifier and query, [process_query] returns a
    string: the "create profile first" message for an unknown identifier,
    the reply of the handler when the handler returns, and the apology
    when the handler raises. *)
Theorem process_query_always_replies (st : State) (user_id query : string) :
  exists reply : string,
    fst (process_query user_id query st) = Return reply
    /\ match user_profiles (chatbot st) !! user_id with
       | None => reply = create_profile_first
       | Some user_profile =>
           match fst (dispatch user_profile (lower query) query st) with
           | Return handled => reply = handled
           | Raise _ => reply = processing_error
           end
       end.
Proof.
  rewrite process_query_unfold.
  destruct (user_profiles (chatbot st) !! user_id) as [p|].
  - destruct (dispatch p (lower query) query st) as [[handled|e] st'];
      eexists; split; reflexivity.
  - eexists; split; reflexivity.
Qed.

(** A profile with neither income nor expenses: its savings query raises
    in the handler, and the caller receives the apology. *)
Definition bare_state : State :=
  snd (create_user_profile "u" "student" 20 None None None None init).

Example savings_query_error_is_caught :
  fst (dispatch (mkUserProfile "student" 20 None [] [] "moderate")
         "how should i save money?" "How should I save money?" bare_state)
  = Raise TypeError
  /\ process_query "u" "How should I save money?" bare_state
     = (Return processing_error,
        {| chatbot := chatbot bare_state; logged := [TypeError] |}).
Proof.
  split; vm_compute; reflexivity.
Qed.

(** *** C2 *)

(** A stored profile whose income is present and equal to [0]. *)
Definition zero_income_profile : UserProfile :=
  mkUserProfile "student" 20 (Some 0) [("rent"%string, 600)] [] "moderate".

(** C2, as stated, fails: with the income present and equal to [0] the tax
    path returns its guidance string, so the guidance is not returned
    only when the income is absent. *)
Lemma zero_income_gets_guidance :
  ~ (fst (_handle_tax_query zero_income_profile "How much will I pay in taxes?" init)
     = Return need_income_for_taxes
     <-> income zero_income_profile = None).
Proof.
  intros [H _].
  assert (income zero_income_profile = None) as Habs by (apply H; vm_compute; reflexivity).
  discriminate Habs.
Qed.

(** The income of a profile is false as a condition: it is absent or
    equal to [0]. *)
Definition income_unset (p : UserProfile) : Prop :=
  income p = None \/ exists i, income p = Some i /\ i == 0.

Lemma income_unset_cases (p : UserProfile) :
  income_unset p \/ exists i, income p = Some i /\ truthy i = true.
Proof.
  unfold income_unset. destruct (income p) as [i|]; [|left; left; reflexivity].
  destruct (truthy i) eqn:Ht.
  - right. exists i. split; [reflexivity | exact Ht].
  - left. right. exists i. split; [reflexivity | apply truthy_false; exact Ht].
Qed.

Lemma income_unset_not_truthy (p : UserProfile) (i : Q) :
  income_unset p -> income p = Some i -> truthy i = false.
Proof.
  intros [Hn | (j & Hj & Hz)] Hi.
  - congruence.
  - assert (j = i) as -> by congruence. apply truthy_false. exact Hz.
Qed.

(** C2, amended: the tax and the investment path return their guidance
    string exactly when the income is absent or equal to [0], and the
    budget path exactly when the income is absent or equal to [0] or the
    expense mapping is empty. *)
Theorem guidance_exactly_when_data_missing (p : UserProfile) (q : string) (st : State) :
  (fst (_handle_tax_query p q st) = Return need_income_for_taxes
   <-> income_unset p)
  /\ (fst (_handle_investment_query p q st) = Return need_income_for_investing
      <-> income_unset p)
  /\ (fst (_handle_budget_query p q st) = Return need_income_and_expenses
      <-> income_unset p \/ expenses p = []).
Proof.
  split; [|split].
  - split.
    + intros H. destruct (income_unset_cases p) as [Hu|(i & Hi & Ht)]; [exact Hu|].
      destruct (tax_reply p q st i Hi Ht) as (reply & Heq & Hc).
      rewrite Heq in H. cbn [fst] in H. injection H as ->.
      cbv in Hc. discriminate Hc.
    + intros H. unfold _handle_tax_query.
      destruct (income p) as [i|] eqn:Hi; [|reflexivity].
      rewrite (income_unset_not_truthy p i H Hi). reflexivity.
  - split.
    + intros H. destruct (income_unset_cases p) as [Hu|(i & Hi & Ht)]; [exact Hu|].
      destruct (investment_reply p q st i Hi Ht) as (reply & Heq & Hc).
      rewrite Heq in H. cbn [fst] in H. injection H as ->.
      cbv in Hc. destruct Hc as [Hc|Hc]; discriminate Hc.
    + intros H. unfold _handle_investment_query.
      destruct (income p) as [i|] eqn:Hi; [|reflexivity].
      rewrite (income_unset_not_truthy p i H Hi). reflexivity.
  - split.
    + intros H. destruct (income_unset_cases p) as [Hu|(i & Hi & Ht)]; [left; exact Hu|].
      destruct (expenses p) as [|kv rest] eqn:He; [right; reflexivity|].
      assert (expenses p <> []) as Hne by (rewrite He; discriminate).
      destruct (budget_reply p q st i Hi Ht Hne) as [(e & Heq)|(reply & Heq & Hc)];
        rewrite Heq in H; cbn [fst] in H; [discriminate H|].
      injection H as ->. cbv in Hc. discriminate Hc.
    + intros H. unfold _handle_budget_query.
      destruct (income p) as [i|] eqn:Hi; [|reflexivity].
      destruct H as [H|H].
      * rewrite (income_unset_not_truthy p i H Hi). reflexivity.
      * rewrite H. cbn [nonempty negb]. rewrite orb_true_r. reflexivity.
Qed.

(** The scenario of the specification: a tax query for a profile with no
    income set is answered with the need-income string. *)
Example tax_query_without_income :
  process_query "student_123" "How much will I pay in taxes?"
    (snd (create_user_profile "student_123" "student" 20 None None None None init))
  = (Return need_income_for_taxes,
     snd (create_user_profile "student_123" "student" 20 None None None None init)).
Proof. vm_compute. reflexivity. Qed.

(** *** C8 *)

(** A store that holds one profile, created without an income. *)
Definition no_income_state : State :=
  snd (create_user_profile "student_123" "student" 20 None
         (Some [("rent"%string, 600)]) None None init).

(** C8, the failing input: for a stored profile whose income is absent
    [get_user_profile_summary] raises instead of returning a snapshot. *)
Theorem summary_without_income_raises :
  user_profiles (chatbot no_income_state) !! "student_123"
  = Some (mkUserProfile "student" 20 None [("rent"%string, 600)] [] "moderate")
  /\ fst (get_user_profile_summary "student_123" no_income_state) = Raise TypeError.
Proof.
  split; vm_compute; reflexivity.
Qed.

(** What holds of the summary: the fixed string for an unknown
    identifier, and a string for a stored profile with an income. *)
Lemma summary_unknown_or_with_income (st : State) (user_id : string) :
  (user_profiles (chatbot st) !! user_id = None ->
   get_user_profile_summary user_id st = (Return no_profile_found, st))
  /\ (forall p i, user_profiles (chatbot st) !! user_id = Some p -> income p = Some i ->
      exists summary, get_user_profile_summary user_id st = (Return summary, st)).
Proof.
  unfold get_user_profile_summary, bind, get_profiles, ret. split.
  - intros ->. reflexivity.
  - intros p i -> ->. eexists. reflexivity.
Qed.

(** *** C9 *)

(** C9: [process_query] leaves the chatbot, and so every stored profile,
    as it was, whether it returns a reply, a guidance message or the
    apology; only the log can grow. *)
Theorem process_query_keeps_profiles (st : State) (user_id query : string) :
  chatbot (snd (process_query user_id query st)) = chatbot st
  /\ (forall id : string,
        user_profiles (chatbot (snd (process_query user_id query st))) !! id
        = user_profiles (chatbot st) !! id)
  /\ (exists errors, logged (snd (process_query user_id query st))
                     = (logged st ++ errors)%list).
Proof.
  rewrite process_query_unfold.
  destruct (user_profiles (chatbot st) !! user_id) as [p|].
  - pose proof (stateless_dispatch p (lower query) query st) as Hs.
    destruct (dispatch p (lower query) query st) as [[reply|e] st'];
      cbn [snd] in *; subst st'.
    + split; [reflexivity|]. split; [reflexivity|].
      exists []. rewrite app_nil_r. reflexivity.
    + split; [reflexivity|]. split; [reflexivity|].
      exists [e]. reflexivity.
  - split; [reflexivity|]. split; [reflexivity|].
    exists []. rewrite app_nil_r. reflexivity.
Qed.

(** By contrast [update_user_expenses] does change the stored profile. *)
Example update_user_expenses_changes_profile :
  expenses <$> (user_profiles
                  (chatbot (snd (update_user_expenses "student_123"
                                   [("rent"%string, 650); ("books"%string, 40)]
                                   no_income_state)))
                !! "student_123")
  = Some [("rent"%string, 650); ("books"%string, 40)].
Proof. vm_compute. reflexivity. Qed.

(** *** C10 *)

Lemma insert_desc_not_nil (x : string * Q) (l : list (string * Q)) : insert_desc x l <> [].
Proof.
  destruct l as [|y l]; cbn [insert_desc]; [discriminate|].
  destruct (Qltb (snd x) (snd y)); discriminate.
Qed.

Lemma sorted_desc_not_nil (items : list (string * Q)) : items <> [] -> sorted_desc items <> [].
Proof.
  destruct items as [|x items]; [contradiction|]. intros _.
  cbn [sorted_desc fold_right]. apply insert_desc_not_nil.
Qed.

Lemma zero_amounts_zero_total (expenses : list (string * Q)) :
  (forall k v, In (k, v) expenses -> v == 0) -> py_sum (values expenses) == 0.
Proof.
  intros Hz.
  assert (forall x, In x (values expenses) -> x == 0) as Hall.
  { intros x Hx. unfold values in Hx. apply in_map_iff in Hx.
    destruct Hx as ([k v] & Heq & Hin). cbn [snd] in Heq. subst v. exact (Hz k x Hin). }
  apply py_sum_zero; [|exact Hall].
  intros x Hx. rewrite (Hall x Hx). lra.
Qed.

Lemma spending_insights_zero_total (expenses : list (string * Q)) (p : UserProfile) :
  expenses <> [] -> (forall k v, In (k, v) expenses -> v == 0) ->
  generate_spending_insights expenses p = Raise ZeroDivisionError.
Proof.
  intros Hne Hz. unfold generate_spending_insights. cbv zeta.
  pose proof (sorted_desc_not_nil expenses Hne) as Hs.
  destruct (sorted_desc expenses) as [|[category amount] rest]; [contradiction|].
  unfold py_div.
  assert (Qeq_bool (py_sum (values expenses)) 0 = true) as ->
    by (apply Qeq_bool_iff, zero_amounts_zero_total, Hz).
  reflexivity.
Qed.

(** C10: for a stored profile with a present, nonzero income and a
    non-empty expense mapping whose amounts are all [0], a budget query
    produces no analysis: the percentage of the spending insights divides
    by the zero total, the handler raises, and [process_query] returns the
    apology.  For the two known user types the exception that reaches the
    router is the division error. *)
Theorem zero_total_budget_query_apologises (st : State) (user_id query : string)
    (p : UserProfile) (i : Q) :
  user_profiles (chatbot st) !! user_id = Some p ->
  income p = Some i -> ~ i == 0 ->
  expenses p <> [] ->
  (forall k v, In (k, v) (expenses p) -> v == 0) ->
  any_word_in ["tax"; "taxes"; "federal"]%string (lower query) = false ->
  any_word_in ["budget"; "spending"; "expenses"]%string (lower query) = true ->
  generate_spending_insights (expenses p) p = Raise ZeroDivisionError
  /\ (exists e, fst (dispatch p (lower query) query st) = Raise e)
  /\ (user_type p = "student"%string \/ user_type p = "professional"%string ->
      fst (dispatch p (lower query) query st) = Raise ZeroDivisionError)
  /\ fst (process_query user_id query st) = Return processing_error.
Proof.
  intros Hp Hi Hnz Hne Hz Htax Hbudget.
  pose proof (spending_insights_zero_total (expenses p) p Hne Hz) as Hins.
  assert (truthy i = true) as Ht by (apply truthy_true; exact Hnz).
  assert (nonempty (expenses p) = true) as Hnonempty
    by (destruct (expenses p); [contradiction|reflexivity]).
  assert (dispatch p (lower query) query st
          = match generate_budget_summary (analyze_budget i (expenses p)) p with
            | Return _ => (Raise ZeroDivisionError, st)
            | Raise e => (Raise e, st)
            end) as Hd.
  { unfold dispatch. rewrite Htax, Hbudget. unfold _handle_budget_query.
    rewrite Hi, Ht, Hnonempty. cbn [negb orb]. cbv zeta. unfold bind, lift.
    destruct (generate_budget_summary (analyze_budget i (expenses p)) p);
      [rewrite Hins|]; reflexivity. }
  split; [exact Hins|].
  split.
  { rewrite Hd. destruct (generate_budget_summary _ p); eexists; reflexivity. }
  split.
  { intros Hknown. rewrite Hd. unfold generate_budget_summary. cbv zeta.
    assert (exists style, tone_style (user_type p) = Return style) as [style ->].
    { destruct Hknown as [-> | ->]; eexists; vm_compute; reflexivity. }
    reflexivity. }
  rewrite process_query_unfold, Hp, Hd.
  destruct (generate_budget_summary _ p); reflexivity.
Qed.

(** A store with one profile: an income, and a rent of [0]. *)
Definition zero_rent_state : State :=
  snd (create_user_profile "prof_456" "professional" 28 (Some 75000)
         (Some [("rent"%string, 0)]) None (Some "high"%string) init).

Definition zero_rent_profile : UserProfile :=
  mkUserProfile "professional" 28 (Some 75000) [("rent"%string, 0)] [] "high".

Lemma zero_total_budget_query_apologises_witness :
  generate_spending_insights (expenses zero_rent_profile) zero_rent_profile
  = Raise ZeroDivisionError
  /\ (exists e, fst (dispatch zero_rent_profile (lower "Give me a budget analysis")
                      "Give me a budget analysis" zero_rent_state) = Raise e)
  /\ (user_type zero_rent_profile = "student"%string
      \/ user_type zero_rent_profile = "professional"%string ->
      fst (dispatch zero_rent_profile (lower "Give me a budget analysis")
             "Give me a budget analysis" zero_rent_state) = Raise ZeroDivisionError)
  /\ fst (process_query "prof_456" "Give me a budget analysis" zero_rent_state)
     = Return processing_error.
Proof.
  apply (zero_total_budget_query_apologises zero_rent_state "prof_456"
           "Give me a budget analysis" zero_rent_profile 75000).
  - vm_compute. reflexivity.
  - reflexivity.
  - intros H. vm_compute in H. discriminate H.
  - discriminate.
  - intros k v [H|[]]. injection H as _ <-. reflexivity.
  - vm_compute. reflexivity.
  - vm_compute. reflexivity.
Defined.

End ChatbotClaims.

(** * Further properties *)

(** ** Profiles and mappings used as examples *)

Module Examples.
Local Open Scope Q_scope.
Local Open Scope string_scope.

(** The expenses of the student of the demonstration in [main]. *)
Definition demo_expenses : list (string * Q) :=
  [("rent", 600); ("groceries", 200); ("transportation", 100);
   ("entertainment", 150); ("textbooks", 50)].

Definition demo_student : UserProfile :=
  mkUserProfile "student" 20 (Some 15000) demo_expenses [] "moderate".

(** A professional whose only expense is a rent of [0]. *)
Definition free_rent_professional : UserProfile :=
  mkUserProfile "professional" 28 (Some 75000) [("rent", 0)] [] "high".


(** A chatbot that holds the student of the demonstration. *)
Definition demo_state : PersonalFinanceChatbot.State :=
  snd (PersonalFinanceChatbot.create_user_profile "student_123" "student" 20 (Some 15000)
         (Some demo_expenses) None (Some "moderate") PersonalFinanceChatbot.init).

End Examples.

(** ** The tax estimator as a function of the income *)

Module TaxExtras.
Import NumFacts Text FinancialAnalyzer TaxFacts.
Local Open Scope Q_scope.

(** The tax the loop adds for an income, from empty accumulators. *)
Definition tax_of (income : Q) (brackets : list Bracket) : Q :=
  fst (tax_loop income brackets 0 []).

(** Every rate of the table lies between [rmin] and [rmax]. *)
Definition rates_within (rmin rmax : Q) (brackets : list Bracket) : Prop :=
  List.Forall (fun b : Bracket => rmin <= snd b /\ snd b <= rmax) brackets.

Lemma tax_loop_fst (brackets : list Bracket) :
  forall (income T : Q) (B : list TaxBreakdown),
    fst (tax_loop income brackets T B) == T + tax_of income brackets.
Proof.
  induction brackets as [|[[lower upper] rate] rest IH]; intros income T B.
  - unfold tax_of. cbn. lra.
  - unfold tax_of. cbn [tax_loop].
    destruct (Qle_bool income lower).
    + cbn. lra.
    + rewrite IH. rewrite (IH income (0 + _)). lra.
Qed.

Lemma tax_of_break (brackets : list Bracket) (lo income : Q) :
  contiguous lo brackets -> income <= lo -> tax_of income brackets = 0.
Proof.
  intros Hc Hle. unfold tax_of.
  rewrite (tax_loop_break brackets lo income 0 [] Hc Hle). reflexivity.
Qed.

Lemma tax_of_step (lower : Q) (upper : bound) (rate : Q) (rest : list Bracket) (income : Q) :
  lower < income ->
  tax_of income ((lower, upper, rate) :: rest)
  == (min_bound income upper - lower) * rate + tax_of income rest.
Proof.
  intros Hlt. unfold tax_of at 1. cbn [tax_loop].
  assert (Qle_bool income lower = false) as -> by (apply Qle_bool_gt; exact Hlt).
  rewrite tax_loop_fst. lra.
Qed.

Lemma min_bound_finite (income u : Q) :
  (u < income /\ min_bound income (Finite u) = u)
  \/ (income <= u /\ min_bound income (Finite u) = income).
Proof.
  cbn [min_bound]. unfold py_min. destruct (Qltb u income) eqn:E.
  - left. split; [apply Qltb_lt; exact E | reflexivity].
  - right. split; [apply Qltb_ge; exact E | reflexivity].
Qed.

Lemma scaled_between (rate rmin rmax d : Q) :
  0 <= d -> rmin <= rate -> rate <= rmax ->
  rmin * d <= d * rate /\ d * rate <= rmax * d.
Proof.
  intros Hd H1 H2.
  pose proof (Qmult_le_compat_r rmin rate d H1 Hd).
  pose proof (Qmult_le_compat_r rate rmax d H2 Hd).
  split; lra.
Qed.

(** Above [lo] the tax lies between the lowest and the highest rate
    applied to [income - lo]. *)
Lemma tax_of_bounds (rmin rmax : Q) (brackets : list Bracket) :
  0 <= rmin ->
  forall (lo income : Q),
    contiguous lo brackets -> rates_within rmin rmax brackets -> lo <= income ->
    rmin * (income - lo) <= tax_of income brackets
    /\ tax_of income brackets <= rmax * (income - lo).
Proof.
  intros Hmin.
  induction brackets as [|[[lower upper] rate] rest IH]; intros lo income Hc Hr Hle.
  - contradiction.
  - destruct (Qlt_le_dec lo income) as [Hlt|Hge].
    + destruct Hc as (Hlo & Hrate & Hup).
      apply List.Forall_cons_iff in Hr. destruct Hr as [[Hr1 Hr2] Hrest]. cbn [snd] in Hr1, Hr2.
      rewrite tax_of_step by lra. rewrite Hlo.
      destruct upper as [u|].
      * destruct Hup as (Hu & Hcrest).
        destruct (min_bound_finite income u) as [[Hui ->]|[Hui ->]].
        -- destruct (IH u income Hcrest Hrest) as [IH1 IH2]; [lra|].
           destruct (scaled_between rate rmin rmax (u - lo)) as [S1 S2]; try lra.
        -- rewrite (tax_of_break rest u income Hcrest Hui).
           destruct (scaled_between rate rmin rmax (income - lo)) as [S1 S2]; try lra.
      * subst rest. cbn [min_bound]. unfold tax_of. cbn [tax_loop fst].
        destruct (scaled_between rate rmin rmax (income - lo)) as [S1 S2]; try lra.
    + rewrite (tax_of_break _ lo income Hc Hge).
      assert (income - lo == 0) as -> by lra. lra.
Qed.

(** Between two incomes the tax grows, by at most the highest rate
    applied to the difference. *)
Lemma tax_of_increase (rmax : Q) (brackets : list Bracket) :
  forall (lo x y : Q),
    contiguous lo brackets -> rates_within 0 rmax brackets -> x <= y ->
    0 <= tax_of y brackets - tax_of x brackets
    /\ tax_of y brackets - tax_of x brackets <= rmax * (y - x).
Proof.
  induction brackets as [|[[lower upper] rate] rest IH]; intros lo x y Hc Hr Hxy.
  - contradiction.
  - pose proof Hc as (Hlo & Hrate & Hup).
    pose proof Hr as Hr'. apply List.Forall_cons_iff in Hr'.
    destruct Hr' as [[Hr1 Hr2] Hrest]. cbn [snd] in Hr1, Hr2.
    destruct (Qlt_le_dec lo x) as [Hx|Hx].
    + rewrite (tax_of_step lower upper rate rest x) by lra.
      rewrite (tax_of_step lower upper rate rest y) by lra.
      rewrite Hlo.
      destruct upper as [u|].
      * destruct Hup as (Hu & Hcrest).
        destruct (min_bound_finite x u) as [[Hux ->]|[Hux ->]];
          destruct (min_bound_finite y u) as [[Huy ->]|[Huy ->]].
        -- destruct (IH u x y Hcrest Hrest Hxy) as [IH1 IH2]. split; lra.
        -- lra.
        -- rewrite (tax_of_break rest u x Hcrest Hux).
           destruct (tax_of_bounds 0 rmax rest (Qle_refl 0) u y Hcrest Hrest) as [B1 B2];
             [lra|].
           destruct (scaled_between rate 0 rmax (u - x)) as [S1 S2]; try lra.
        -- rewrite (tax_of_break rest u x Hcrest Hux), (tax_of_break rest u y Hcrest Huy).
           destruct (scaled_between rate 0 rmax (y - x)) as [S1 S2]; try lra.
      * subst rest. cbn [min_bound]. unfold tax_of. cbn [tax_loop fst].
        destruct (scaled_between rate 0 rmax (y - x)) as [S1 S2]; try lra.
    + rewrite (tax_of_break _ lo x Hc Hx).
      destruct (Qlt_le_dec lo y) as [Hy|Hy].
      * destruct (tax_of_bounds 0 rmax _ (Qle_refl 0) lo y Hc Hr) as [B1 B2]; [lra|].
        assert (0 <= rmax) as Hm by lra.
        pose proof (Qmult_le_compat_r 0 rmax (lo - x) Hm).
        split; lra.
      * rewrite (tax_of_break _ lo y Hc Hy).
        assert (0 <= rmax) as Hm by lra.
        pose proof (Qmult_le_compat_r 0 rmax (y - x) Hm).
        split; lra.
Qed.

Lemma single_rates : rates_within 0.10 0.37 single.
Proof.
  unfold rates_within, single.
  repeat (apply List.Forall_cons; [cbn [snd]; split; lra|]). apply List.Forall_nil.
Qed.

Lemma single_rates_from_zero : rates_within 0 0.37 single.
Proof.
  unfold rates_within, single.
  repeat (apply List.Forall_cons; [cbn [snd]; split; lra|]). apply List.Forall_nil.
Qed.

(** The fields of the estimate in terms of [tax_of]. *)
Lemma estimate_fields (income : Q) (filing_status : string) :
  total_tax (calculate_tax_estimate income filing_status) = tax_of income single
  /\ after_tax_income (calculate_tax_estimate income filing_status)
     = income - tax_of income single
  /\ effective_rate (calculate_tax_estimate income filing_status)
     = (if Qltb 0 income then tax_of income single / income * 100 else 0)
  /\ breakdown (calculate_tax_estimate income filing_status)
     = snd (tax_loop income single 0 []).
Proof.
  unfold calculate_tax_estimate, tax_of. rewrite brackets_of_any_status.
  destruct (tax_loop income single 0 []) as [T B]. cbn. repeat split.
Qed.

(** X1: an income of [0] or below meets the [break] at the first bracket:
    no tax, rate [0], an empty breakdown, and the income itself as
    after-tax income. *)
Theorem nonpositive_income_untaxed (income : Q) (filing_status : string) :
  income <= 0 ->
  calculate_tax_estimate income filing_status
  = {| total_tax := 0; effective_rate := 0;
       after_tax_income := income - 0; breakdown := [] |}.
Proof.
  intros Hle. unfold calculate_tax_estimate. rewrite brackets_of_any_status.
  rewrite (tax_loop_break single 0 income 0 [] single_contiguous Hle).
  assert (Qltb 0 income = false) as -> by (apply Qltb_ge; exact Hle).
  reflexivity.
Qed.

Lemma nonpositive_income_untaxed_witness :
  calculate_tax_estimate (-500) "single"
  = {| total_tax := 0; effective_rate := 0;
       after_tax_income := -500 - 0; breakdown := [] |}.
Proof.
  apply (nonpositive_income_untaxed (-500) "single"). lra.
Defined.

(** X2: a filing status that is not a key of the table falls back to the
    single table, so every filing status gives the same estimate. *)
Theorem filing_status_falls_back_to_single (income : Q) (filing_status : string) :
  calculate_tax_estimate income filing_status = calculate_tax_estimate income "single".
Proof.
  unfold calculate_tax_estimate. rewrite !brackets_of_any_status. reflexivity.
Qed.

(** X3: for an income [>= 0] the total tax lies between 10% and 37% of the
    income, and for a positive income the effective rate lies between
    [10] and [37]. *)
Theorem total_tax_between_lowest_and_highest_rate (income : Q) (filing_status : string) :
  0 <= income ->
  0.10 * income <= total_tax (calculate_tax_estimate income filing_status)
  /\ total_tax (calculate_tax_estimate income filing_status) <= 0.37 * income
  /\ (0 < income ->
      10 <= effective_rate (calculate_tax_estimate income filing_status)
      /\ effective_rate (calculate_tax_estimate income filing_status) <= 37).
Proof.
  intros Hnn.
  destruct (estimate_fields income filing_status) as (-> & _ & -> & _).
  assert (0 <= 0.10) as H10 by lra.
  destruct (tax_of_bounds 0.10 0.37 single H10 0 income single_contiguous single_rates Hnn)
    as [B1 B2].
  split; [lra|]. split; [lra|].
  intros Hpos. assert (Qltb 0 income = true) as -> by (apply Qltb_lt; exact Hpos).
  assert (income * (tax_of income single / income) == tax_of income single) as Hq
    by (apply Qmult_div_r; lra).
  set (r := tax_of income single / income) in *. split; nra.
Qed.

Lemma total_tax_between_lowest_and_highest_rate_witness :
  0.10 * 75000 <= total_tax (calculate_tax_estimate 75000 "single")
  /\ total_tax (calculate_tax_estimate 75000 "single") <= 0.37 * 75000
  /\ (0 < 75000 ->
      10 <= effective_rate (calculate_tax_estimate 75000 "single")
      /\ effective_rate (calculate_tax_estimate 75000 "single") <= 37).
Proof.
  apply (total_tax_between_lowest_and_highest_rate 75000 "single"). lra.
Defined.

(** X4: a higher income never lowers the total tax and never lowers the
    after-tax income. *)
Theorem tax_and_after_tax_income_monotone (income1 income2 : Q)
    (filing_status1 filing_status2 : string) :
  income1 <= income2 ->
  total_tax (calculate_tax_estimate income1 filing_status1)
  <= total_tax (calculate_tax_estimate income2 filing_status2)
  /\ after_tax_income (calculate_tax_estimate income1 filing_status1)
     <= after_tax_income (calculate_tax_estimate income2 filing_status2).
Proof.
  intros Hle.
  destruct (estimate_fields income1 filing_status1) as (-> & -> & _).
  destruct (estimate_fields income2 filing_status2) as (-> & -> & _).
  destruct (tax_of_increase 0.37 single 0 income1 income2
              single_contiguous single_rates_from_zero Hle) as [H1 H2].
  split; lra.
Qed.

Lemma tax_and_after_tax_income_monotone_witness :
  total_tax (calculate_tax_estimate 15000 "single")
  <= total_tax (calculate_tax_estimate 75000 "single")
  /\ after_tax_income (calculate_tax_estimate 15000 "single")
     <= after_tax_income (calculate_tax_estimate 75000 "single").
Proof.
  apply (tax_and_after_tax_income_monotone 15000 75000 "single" "single"). lra.
Defined.

(** The total tax and the tax amounts recorded in the breakdown move
    together when no bracket has its upper bound below its lower bound. *)
Lemma tax_loop_recorded (brackets : list Bracket) :
  List.Forall (fun b : Bracket => match snd (fst b) with
                                  | Finite u => fst (fst b) <= u
                                  | Infinity => True
                                  end) brackets ->
  forall (income T : Q) (B : list TaxBreakdown),
    fst (tax_loop income brackets T B)
    - py_sum (map tax_amount (snd (tax_loop income brackets T B)))
    == T - py_sum (map tax_amount B).
Proof.
  induction brackets as [|[[lower upper] rate] rest IH]; intros Hwf income T B.
  - cbn [tax_loop fst snd]. lra.
  - apply List.Forall_cons_iff in Hwf. destruct Hwf as [Hb Hrest]. cbn [fst snd] in Hb.
    cbn [tax_loop]. destruct (Qle_bool income lower) eqn:E; [cbn [fst snd]; lra|].
    apply Qle_bool_gt in E. rewrite (IH Hrest).
    destruct (Qltb 0 (min_bound income upper - lower)) eqn:Et.
    + rewrite map_app, py_sum_app. cbn [map]. rewrite py_sum_cons, py_sum_nil.
      cbn [tax_amount breakdown_entry]. lra.
    + apply Qltb_ge in Et.
      assert (lower <= min_bound income upper) as Hmin.
      { destruct upper as [u|]; [|cbn; lra].
        destruct (min_bound_finite income u) as [[_ ->]|[_ ->]]; lra. }
      assert (min_bound income upper - lower == 0) as H0 by lra.
      rewrite H0. lra.
Qed.

(** X5: the tax amounts of the breakdown entries add up to the total tax. *)
Theorem breakdown_tax_amounts_sum_to_total (income : Q) (filing_status : string) :
  py_sum (map tax_amount (breakdown (calculate_tax_estimate income filing_status)))
  == total_tax (calculate_tax_estimate income filing_status).
Proof.
  destruct (estimate_fields income filing_status) as (-> & _ & _ & ->).
  assert (List.Forall (fun b : Bracket => match snd (fst b) with
                                          | Finite u => fst (fst b) <= u
                                          | Infinity => True
                                          end) single) as Hwf.
  { unfold single.
    repeat (apply List.Forall_cons; [cbn [fst snd]; try lra; exact I|]).
    apply List.Forall_nil. }
  pose proof (tax_loop_recorded single Hwf income 0 []) as H.
  cbn [map] in H. pose proof py_sum_nil as Hnil. unfold tax_of. lra.
Qed.

End TaxExtras.

(** ** The budget analyzer: the health rating and the totals *)

Module BudgetExtras.
Import NumFacts Text FinancialAnalyzer.
Local Open Scope Q_scope.

(** The four ratings, from the worst to the best. *)
Definition health_rank (rating : string) : nat :=
  if String.eqb rating "excellent" then 3
  else if String.eqb rating "good" then 2
  else if String.eqb rating "fair" then 1
  else 0.

(** The rating as a function of the savings rate alone. *)
Lemma assess_cases (savings_rate needs wants income : Q) :
  (20 <= savings_rate
   /\ _assess_budget_health savings_rate needs wants income = "excellent"%string)
  \/ (10 <= savings_rate /\ savings_rate < 20
      /\ _assess_budget_health savings_rate needs wants income = "good"%string)
  \/ (5 <= savings_rate /\ savings_rate < 10
      /\ _assess_budget_health savings_rate needs wants income = "fair"%string)
  \/ (savings_rate < 5
      /\ _assess_budget_health savings_rate needs wants income = "needs_improvement"%string).
Proof.
  unfold _assess_budget_health.
  destruct (Qle_bool 20 savings_rate) eqn:E20.
  { apply Qle_bool_iff in E20. left. split; [exact E20 | reflexivity]. }
  apply Qle_bool_gt in E20.
  destruct (Qle_bool 10 savings_rate) eqn:E10.
  { apply Qle_bool_iff in E10. right; left. repeat split; assumption. }
  apply Qle_bool_gt in E10.
  destruct (Qle_bool 5 savings_rate) eqn:E5.
  { apply Qle_bool_iff in E5. right; right; left. repeat split; assumption. }
  apply Qle_bool_gt in E5. right; right; right. split; [exact E5 | reflexivity].
Qed.

(** X6: the health rating never gets worse when the savings rate grows,
    whatever the other three arguments are. *)
Theorem budget_health_monotone (rate1 rate2 needs1 wants1 income1 needs2 wants2 income2 : Q) :
  rate1 <= rate2 ->
  (health_rank (_assess_budget_health rate1 needs1 wants1 income1)
   <= health_rank (_assess_budget_health rate2 needs2 wants2 income2))%nat.
Proof.
  intros Hle.
  destruct (assess_cases rate1 needs1 wants1 income1)
    as [(A1 & ->)|[(A1 & A2 & ->)|[(A1 & A2 & ->)|(A1 & ->)]]];
    destruct (assess_cases rate2 needs2 wants2 income2)
      as [(B1 & ->)|[(B1 & B2 & ->)|[(B1 & B2 & ->)|(B1 & ->)]]];
    cbn; try lia; exfalso; lra.
Qed.

Lemma budget_health_monotone_witness :
  (health_rank (_assess_budget_health 5 0 0 0)
   <= health_rank (_assess_budget_health 20 900 150 15000))%nat.
Proof.
  apply (budget_health_monotone 5 20 0 0 0 900 150 15000). lra.
Defined.



End BudgetExtras.

(** ** Expense mappings: assignment and [update] *)

Module DictExtras.
Import NumFacts Text FinancialAnalyzer.
Local Open Scope Q_scope.

Section Lookup.
Context {V : Type}.
Implicit Types (d other : list (string * V)) (k key : string) (v : V).

Lemma dict_lookup_set_same key v d : dict_lookup key (dict_set key v d) = Some v.
Proof.
  induction d as [|[k w] d IH]; cbn [dict_set dict_lookup].
  - rewrite String.eqb_refl. reflexivity.
  - destruct (String.eqb key k) eqn:E; cbn [dict_lookup]; rewrite E; [reflexivity|exact IH].
Qed.

Lemma dict_lookup_set_other key k v d :
  key <> k -> dict_lookup key (dict_set k v d) = dict_lookup key d.
Proof.
  intros Hne. induction d as [|[k' w] d IH]; cbn [dict_set dict_lookup].
  - assert (String.eqb key k = false) as -> by (apply String.eqb_neq; exact Hne).
    reflexivity.
  - destruct (String.eqb k k') eqn:E; cbn [dict_lookup].
    + apply String.eqb_eq in E. subst k'.
      assert (String.eqb key k = false) as -> by (apply String.eqb_neq; exact Hne).
      reflexivity.
    + destruct (String.eqb key k'); [reflexivity|exact IH].
Qed.

Lemma dict_lookup_app key d1 d2 :
  dict_lookup key (d1 ++ d2)
  = match dict_lookup key d1 with
    | Some v => Some v
    | None => dict_lookup key d2
    end.
Proof.
  induction d1 as [|[k w] d1 IH]; cbn [app dict_lookup]; [reflexivity|].
  destruct (String.eqb key k); [reflexivity|exact IH].
Qed.

Lemma dict_lookup_absent_key key d : ~ In key (map fst d) -> dict_lookup key d = None.
Proof.
  induction d as [|[k w] d IH]; cbn [dict_lookup map fst In]; [reflexivity|].
  intros Hnot. destruct (String.eqb key k) eqn:E.
  - apply String.eqb_eq in E. subst. tauto.
  - apply IH. tauto.
Qed.

(** Later entries of [other] win: the lookup goes through [other] from
    its end. *)
Lemma dict_lookup_update_rev key other :
  forall d,
    dict_lookup key (dict_update d other)
    = match dict_lookup key (rev other) with
      | Some v => Some v
      | None => dict_lookup key d
      end.
Proof.
  unfold dict_update.
  induction other as [|[k v] other IH]; intros d; cbn [fold_left rev fst snd].
  - reflexivity.
  - rewrite IH, dict_lookup_app. destruct (dict_lookup key (rev other)); [reflexivity|].
    cbn [dict_lookup]. destruct (String.eqb key k) eqn:E.
    + apply String.eqb_eq in E. subst k. apply dict_lookup_set_same.
    + apply dict_lookup_set_other. apply String.eqb_neq. exact E.
Qed.

Lemma dict_lookup_rev key d :
  List.NoDup (map fst d) -> dict_lookup key (rev d) = dict_lookup key d.
Proof.
  induction d as [|[k w] d IH]; intros Hnd; [reflexivity|].
  cbn [map fst] in Hnd. apply List.NoDup_cons_iff in Hnd. destruct Hnd as [Hk Hnd].
  cbn [rev]. rewrite dict_lookup_app, (IH Hnd). cbn [dict_lookup].
  destruct (String.eqb key k) eqn:E.
  - apply String.eqb_eq in E. subst k. rewrite (dict_lookup_absent_key key d Hk).
    reflexivity.
  - destruct (dict_lookup key d); reflexivity.
Qed.

(** X9: [update] merges: after [d.update(other)] a key of [other] has the
    value [other] gives it, and every other key has the value it had. *)
Theorem dict_update_lookup d other key :
  List.NoDup (map fst other) ->
  dict_lookup key (dict_update d other)
  = match dict_lookup key other with
    | Some v => Some v
    | None => dict_lookup key d
    end.
Proof.
  intros Hnd. rewrite dict_lookup_update_rev, (dict_lookup_rev key other Hnd). reflexivity.
Qed.

Lemma dict_set_keys key v d :
  map fst (dict_set key v d)
  = if existsb (String.eqb key) (map fst d) then map fst d else (map fst d ++ [key])%list.
Proof.
  induction d as [|[k w] d IH]; cbn [dict_set map fst existsb app]; [reflexivity|].
  destruct (String.eqb key k) eqn:E; cbn [orb map fst].
  - reflexivity.
  - rewrite IH. destruct (existsb (String.eqb key) (map fst d)); reflexivity.
Qed.

Lemma existsb_eqb_In key (keys : list string) :
  existsb (String.eqb key) keys = true <-> In key keys.
Proof.
  rewrite existsb_exists. split.
  - intros (x & Hin & Heq). apply String.eqb_eq in Heq. subst. exact Hin.
  - intros Hin. exists key. split; [exact Hin | apply String.eqb_refl].
Qed.

Lemma dict_set_keys_extend key v d :
  exists added, map fst (dict_set key v d) = (map fst d ++ added)%list
                /\ (List.NoDup (map fst d) -> List.NoDup (map fst (dict_set key v d))).
Proof.
  rewrite dict_set_keys. destruct (existsb (String.eqb key) (map fst d)) eqn:E.
  - exists []. rewrite app_nil_r. split; [reflexivity | tauto].
  - exists [key]. split; [reflexivity|]. intros Hnd.
    assert (~ In key (map fst d)) as Hnot.
    { intros Hin. apply existsb_eqb_In in Hin. congruence. }
    apply List.NoDup_app; [exact Hnd | repeat constructor; cbn [In]; tauto |].
    intros x Hx [<-|[]]. exact (Hnot Hx).
Qed.

(** X10: [update] keeps the mapping a mapping and keeps the insertion
    order: the keys stay distinct, the keys that were there keep their
    places, and new keys go to the end. *)
Theorem dict_update_keys d other :
  exists added,
    map fst (dict_update d other) = (map fst d ++ added)%list
    /\ (List.NoDup (map fst d) -> List.NoDup (map fst (dict_update d other))).
Proof.
  unfold dict_update. revert d.
  induction other as [|[k v] other IH]; intros d; cbn [fold_left fst snd].
  - exists []. rewrite app_nil_r. split; [reflexivity | tauto].
  - destruct (dict_set_keys_extend k v d) as (a1 & Hk1 & Hn1).
    destruct (IH (dict_set k v d)) as (a2 & Hk2 & Hn2).
    exists (a1 ++ a2)%list. split.
    + rewrite Hk2, Hk1, app_assoc. reflexivity.
    + intros Hnd. apply Hn2, Hn1, Hnd.
Qed.

End Lookup.

Lemma dict_update_lookup_witness :
  dict_lookup "rent" (dict_update [("rent"%string, 600); ("groceries"%string, 200)]
                        [("rent"%string, 650); ("books"%string, 40)])
  = match dict_lookup "rent" [("rent"%string, 650); ("books"%string, 40)] with
    | Some v => Some v
    | None => dict_lookup "rent" [("rent"%string, 600); ("groceries"%string, 200)]
    end.
Proof.
  apply (dict_update_lookup (V := Q)).
  repeat (apply List.NoDup_cons; [cbn [In]; intuition discriminate|]).
  apply List.NoDup_nil.
Defined.

(** X11: an update that touches no whitelisted category leaves both
    aggregates of the budget analysis as they were. *)
Theorem update_outside_whitelists_keeps_aggregates (income : Q)
    (expenses other : list (string * Q)) :
  (forall k, In k (map fst other) -> ~ (In k needs_categories \/ In k wants_categories)) ->
  needs_spending (analyze_budget income (dict_update expenses other))
  = needs_spending (analyze_budget income expenses)
  /\ wants_spending (analyze_budget income (dict_update expenses other))
     = wants_spending (analyze_budget income expenses).
Proof.
  intros Hout. unfold analyze_budget. cbn [needs_spending wants_spending].
  assert (forall cat, In cat needs_categories \/ In cat wants_categories ->
                      dict_get (dict_update expenses other) cat 0 = dict_get expenses cat 0)
    as Hsame.
  { intros cat Hcat. unfold dict_get. rewrite dict_lookup_update_rev.
    rewrite dict_lookup_absent_key; [reflexivity|].
    rewrite map_rev, <- in_rev. intros Hin. exact (Hout cat Hin Hcat). }
  split; f_equal; apply map_ext_in; intros cat Hin; apply Hsame; tauto.
Qed.

Lemma update_outside_whitelists_keeps_aggregates_witness :
  needs_spending (analyze_budget 15000
                    (dict_update Examples.demo_expenses [("textbooks"%string, 80)]))
  = needs_spending (analyze_budget 15000 Examples.demo_expenses)
  /\ wants_spending (analyze_budget 15000
                       (dict_update Examples.demo_expenses [("textbooks"%string, 80)]))
     = wants_spending (analyze_budget 15000 Examples.demo_expenses).
Proof.
  apply (update_outside_whitelists_keeps_aggregates 15000 Examples.demo_expenses
           [("textbooks"%string, 80)]).
  intros k [<-|[]]. cbn [needs_categories wants_categories In]. intuition discriminate.
Defined.

End DictExtras.

(** ** The investment recommender *)

Module InvestmentExtras.
Import NumFacts Text FinancialAnalyzer.
Local Open Scope Q_scope.




(** X13: for a student the risk tolerance plays no part; the first
    suggested amount exceeds neither [5000] nor the funds, and for funds
    between [0] and [50000/3] the two amounts add up to more than the
    funds. *)
Theorem student_allocations (user_profile : UserProfile) (available_funds : Q) :
  user_type user_profile = "student"%string ->
  map allocation (generate_investment_suggestions user_profile available_funds)
  = [py_min available_funds 5000; available_funds * 0.7]
  /\ py_min available_funds 5000 <= 5000
  /\ py_min available_funds 5000 <= available_funds
  /\ (0 < available_funds -> available_funds * 3 < 50000 ->
      available_funds
      < py_sum (map allocation (generate_investment_suggestions user_profile available_funds))).
Proof.
  intros Hs. unfold generate_investment_suggestions. rewrite Hs.
  cbn [String.eqb Ascii.eqb Bool.eqb map allocation].
  assert (py_min available_funds 5000 <= 5000 /\ py_min available_funds 5000 <= available_funds
          /\ (0 < available_funds -> available_funds * 3 < 50000 ->
              available_funds < py_min available_funds 5000 + available_funds * 0.7))
    as (H1 & H2 & H3).
  { unfold py_min. destruct (Qltb 5000 available_funds) eqn:E.
    - apply Qltb_lt in E. split; [lra|]. split; [lra|]. intros H H'. lra.
    - apply Qltb_ge in E. split; [lra|]. split; [lra|]. intros H H'. lra. }
  split; [reflexivity|]. split; [exact H1|]. split; [exact H2|].
  intros Hpos Hsmall. rewrite !py_sum_cons, py_sum_nil.
  pose proof (H3 Hpos Hsmall). lra.
Qed.

Lemma student_allocations_witness :
  map allocation (generate_investment_suggestions
                    (mkUserProfile "student" 20 (Some 15000) [] [] "moderate") 2000)
  = [py_min 2000 5000; 2000 * 0.7]
  /\ py_min 2000 5000 <= 5000
  /\ py_min 2000 5000 <= 2000
  /\ (0 < 2000 -> 2000 * 3 < 50000 ->
      2000 < py_sum (map allocation
                       (generate_investment_suggestions
                          (mkUserProfile "student" 20 (Some 15000) [] [] "moderate") 2000))).
Proof.
  apply student_allocations. reflexivity.
Defined.

End InvestmentExtras.

(** ** The spending insights *)

Module InsightExtras.
Import NumFacts Text FinancialAnalyzer ResponseGenerator.
Local Open Scope Q_scope.

(** Descending by amount. *)
Definition amount_ge (a b : string * Q) : Prop := snd b <= snd a.

Lemma insert_desc_perm (x : string * Q) (l : list (string * Q)) :
  Permutation (insert_desc x l) (x :: l).
Proof.
  induction l as [|y l IH]; cbn [insert_desc]; [reflexivity|].
  destruct (Qltb (snd x) (snd y)); [|reflexivity].
  rewrite IH. apply perm_swap.
Qed.

Lemma sorted_desc_perm (items : list (string * Q)) : Permutation (sorted_desc items) items.
Proof.
  induction items as [|x items IH]; cbn [sorted_desc fold_right]; [reflexivity|].
  fold (sorted_desc items). rewrite insert_desc_perm, IH. reflexivity.
Qed.

Lemma insert_desc_sorted (x : string * Q) (l : list (string * Q)) :
  StronglySorted amount_ge l -> StronglySorted amount_ge (insert_desc x l).
Proof.
  intros Hs. induction Hs as [|y l Hs IH Hall]; cbn [insert_desc].
  - constructor; constructor.
  - rewrite List.Forall_forall in Hall.
    destruct (Qltb (snd x) (snd y)) eqn:E.
    + apply Qltb_lt in E. constructor; [exact IH|].
      rewrite List.Forall_forall. intros z Hz.
      apply (Permutation_in _ (insert_desc_perm x l)) in Hz.
      destruct Hz as [<-|Hz]; [unfold amount_ge; lra | apply Hall, Hz].
    + apply Qltb_ge in E. constructor; [constructor; [exact Hs|]|].
      * rewrite List.Forall_forall. exact Hall.
      * rewrite List.Forall_forall. intros z [<-|Hz]; [exact E|].
        specialize (Hall z Hz). unfold amount_ge in *. lra.
Qed.

Lemma sorted_desc_sorted (items : list (string * Q)) :
  StronglySorted amount_ge (sorted_desc items).
Proof.
  induction items as [|x items IH]; cbn [sorted_desc fold_right]; [constructor|].
  apply insert_desc_sorted. exact IH.
Qed.

(** The entry [e] is the first of the largest amounts of [items]. *)
Definition first_largest (items : list (string * Q)) (e : string * Q) : Prop :=
  exists before after,
    items = (before ++ e :: after)%list
    /\ (forall x, In x before -> snd x < snd e)
    /\ (forall x, In x after -> snd x <= snd e).

Lemma sorted_desc_head (items : list (string * Q)) :
  forall e rest, sorted_desc items = e :: rest -> first_largest items e.
Proof.
  induction items as [|x items IH]; intros e rest Heq; [discriminate|].
  cbn [sorted_desc fold_right] in Heq. fold (sorted_desc items) in Heq.
  destruct (sorted_desc items) as [|y s] eqn:Es.
  - cbn [insert_desc] in Heq. injection Heq as <- <-.
    assert (items = []) as ->.
    { destruct items as [|z items]; [reflexivity|].
      pose proof (sorted_desc_perm (z :: items)) as Hp. rewrite Es in Hp.
      apply Permutation_nil in Hp. discriminate. }
    exists [], []. split; [reflexivity|]. split; intros z [].
  - destruct (IH y s eq_refl) as (before & after & -> & Hb & Ha).
    cbn [insert_desc] in Heq. destruct (Qltb (snd x) (snd y)) eqn:E.
    + apply Qltb_lt in E. injection Heq as <- _.
      exists (x :: before), after. split; [reflexivity|]. split; [|exact Ha].
      intros z [<-|Hz]; [exact E | apply Hb, Hz].
    + apply Qltb_ge in E. injection Heq as <- _.
      exists [], (before ++ y :: after)%list. split; [reflexivity|].
      split; [intros z []|].
      intros z Hz. apply in_app_or in Hz. destruct Hz as [Hz|[<-|Hz]].
      * specialize (Hb z Hz). lra.
      * exact E.
      * specialize (Ha z Hz). lra.
Qed.

(** X14: the sort of the spending insights returns the same items in
    descending order of amount, and its first item is the first, in the
    order of the mapping, of the items with the largest amount. *)
Theorem sorted_desc_descending_stable (items : list (string * Q)) :
  Permutation (sorted_desc items) items
  /\ StronglySorted amount_ge (sorted_desc items)
  /\ (forall e rest, sorted_desc items = e :: rest -> first_largest items e).
Proof.
  split; [apply sorted_desc_perm|]. split; [apply sorted_desc_sorted|].
  apply sorted_desc_head.
Qed.

Lemma sorted_desc_nil_inv (items : list (string * Q)) : sorted_desc items = [] -> items = [].
Proof.
  intros H. pose proof (sorted_desc_perm items) as Hp. rewrite H in Hp.
  apply Permutation_nil in Hp. exact Hp.
Qed.

Lemma spending_insights_cases (expenses : list (string * Q)) (p : UserProfile) :
  match generate_spending_insights expenses p with
  | Raise e =>
      e = ZeroDivisionError /\ expenses <> [] /\ py_sum (values expenses) == 0
  | Return lines =>
      (expenses = [] /\ lines = [])
      \/ (expenses <> [] /\ ~ py_sum (values expenses) == 0
          /\ (1 <= length lines <= 3)%nat
          /\ firstn 3 lines = lines)
  end.
Proof.
  unfold generate_spending_insights. cbv zeta.
  destruct (sorted_desc expenses) as [|[category amount] rest] eqn:Es.
  - apply sorted_desc_nil_inv in Es. subst expenses. cbn. left. split; reflexivity.
  - assert (expenses <> []) as Hne.
    { intros ->. discriminate Es. }
    unfold py_div. destruct (Qeq_bool (py_sum (values expenses)) 0) eqn:Ez.
    + apply Qeq_bool_iff in Ez. cbn [bindR]. split; [reflexivity|]. split; assumption.
    + cbn [bindR]. right. split; [exact Hne|]. split.
      { intros H0. apply Qeq_bool_iff in H0. congruence. }
      repeat match goal with
             | |- context [if ?b then _ else _] => destruct b
             | |- context [match dict_lookup ?k ?d with _ => _ end] =>
                 destruct (dict_lookup k d)
             end;
        cbn [map app length firstn]; (split; [lia | reflexivity]).
Qed.

(** X15: the outcome of the spending insights: no line for an empty
    mapping; a division error for a non-empty mapping whose amounts add up
    to [0]; otherwise between one and three lines, so that the slice of
    the budget path drops nothing. *)
Theorem spending_insights_outcome (expenses : list (string * Q)) (p : UserProfile) :
  match generate_spending_insights expenses p with
  | Raise e =>
      e = ZeroDivisionError /\ expenses <> [] /\ py_sum (values expenses) == 0
  | Return lines =>
      (expenses = [] /\ lines = [])
      \/ (expenses <> [] /\ ~ py_sum (values expenses) == 0
          /\ (1 <= length lines <= 3)%nat
          /\ firstn 3 lines = lines)
  end.
Proof. exact (spending_insights_cases expenses p). Qed.

(** The first insight before the tone adapter, for a top category, its
    amount and the text of its share of the total. *)
Definition top_line (category : string) (amount : Q) (share_text : string) : string :=
  ("Your highest expense is " ++ category ++ ": $" ++ fmt_f true 2 amount
   ++ " (" ++ share_text ++ "% of total spending)")%string.

(** X16: when the amounts are not negative and do not add up to [0], and
    no category name holds a dollar sign, the first insight is the
    tone-adapted line that names a category with the largest amount, the
    first such category of the mapping, with that amount to two places
    and a text for its share of the total. *)
Theorem first_insight_is_for_largest (expenses : list (string * Q)) (p : UserProfile) :
  expenses <> [] ->
  (forall k v, In (k, v) expenses -> 0 <= v) ->
  ~ py_sum (values expenses) == 0 ->
  (forall k v, In (k, v) expenses -> contains "$" k = false) ->
  exists category amount share_text rest,
    generate_spending_insights expenses p
    = Return (adapt_tone (top_line category amount share_text) (user_type p) :: rest)
    /\ first_largest expenses (category, amount)
    /\ (forall k v, In (k, v) expenses -> v <= amount).
Proof.
  intros Hne _ Hnz _.
  destruct (sorted_desc expenses) as [|[category amount] tail] eqn:Es.
  { apply sorted_desc_nil_inv in Es. contradiction. }
  pose proof (sorted_desc_head expenses _ _ Es) as Hfirst.
  assert (forall k v, In (k, v) expenses -> v <= amount) as Hmax.
  { destruct Hfirst as (before & after & -> & Hb & Ha). intros k v Hin.
    apply in_app_or in Hin. destruct Hin as [Hin|[Heq|Hin]].
    - specialize (Hb _ Hin). cbn [snd] in Hb. lra.
    - injection Heq as _ <-. lra.
    - exact (Ha _ Hin). }
  unfold generate_spending_insights. cbv zeta. rewrite Es. unfold py_div.
  assert (Qeq_bool (py_sum (values expenses)) 0 = false) as ->.
  { destruct (Qeq_bool (py_sum (values expenses)) 0) eqn:E; [|reflexivity].
    apply Qeq_bool_iff in E. contradiction. }
  cbn [bindR]. unfold top_line.
  repeat match goal with
         | |- context [if ?b then _ else _] => destruct b
         | |- context [match dict_lookup ?k ?d with _ => _ end] =>
             destruct (dict_lookup k d)
         end;
    cbn [map app]; eexists category, amount, _, _;
    (split; [reflexivity|]); (split; [exact Hfirst | exact Hmax]).
Qed.

Lemma first_insight_is_for_largest_witness :
  exists category amount share_text rest,
    generate_spending_insights Examples.demo_expenses Examples.demo_student
    = Return (adapt_tone (top_line category amount share_text)
                (user_type Examples.demo_student) :: rest)
    /\ first_largest Examples.demo_expenses (category, amount)
    /\ (forall k v, In (k, v) Examples.demo_expenses -> v <= amount).
Proof.
  apply (first_insight_is_for_largest Examples.demo_expenses Examples.demo_student).
  - discriminate.
  - intros k v Hin. unfold Examples.demo_expenses in Hin. cbn [In] in Hin.
    repeat (destruct Hin as [Hin|Hin]; [injection Hin as _ <-; discriminate|]).
    contradiction.
  - intros H. vm_compute in H. discriminate H.
  - intros k v Hin. unfold Examples.demo_expenses in Hin. cbn [In] in Hin.
    repeat (destruct Hin as [Hin|Hin]; [injection Hin as <- _; reflexivity|]).
    contradiction.
Defined.

End InsightExtras.

(** ** The chatbot: the store, the router and the handlers *)

Module ChatbotExtras.
Import NumFacts Text FinancialAnalyzer ResponseGenerator PersonalFinanceChatbot.
Import ChatbotFacts ChatbotClaims InsightExtras.
Local Open Scope Q_scope.

(** *** Lower case *)

Lemma to_lower_idempotent (c : ascii) : to_lower (to_lower c) = to_lower c.
Proof. destruct c as [[] [] [] [] [] [] [] []]; reflexivity. Qed.

Lemma lower_idempotent (s : string) : lower (lower s) = lower s.
Proof.
  induction s as [|c s IH]; cbn [lower]; [reflexivity|].
  rewrite to_lower_idempotent, IH. reflexivity.
Qed.

Lemma dispatch_ignores_query (p : UserProfile) (query_lower q1 q2 : string) :
  dispatch p query_lower q1 = dispatch p query_lower q2.
Proof.
  unfold dispatch.
  repeat match goal with |- context [if ?b then _ else _] => destruct b end;
    reflexivity.
Qed.

(** X17: the query counts only through its lower-case form: two queries
    with the same lower-case form get the same reply and leave the same
    state, and so does a query and its lower-case form. *)
Theorem process_query_case_insensitive (user_id query : string) (st : State) :
  (forall query', lower query = lower query' ->
                  process_query user_id query st = process_query user_id query' st)
  /\ process_query user_id (lower query) st = process_query user_id query st.
Proof.
  assert (forall q q', lower q = lower q' ->
                       process_query user_id q st = process_query user_id q' st) as H.
  { intros q q' Hl. rewrite !process_query_unfold, Hl.
    destruct (user_profiles (chatbot st) !! user_id) as [p|]; [|reflexivity].
    rewrite (dispatch_ignores_query p (lower q') q q'). reflexivity. }
  split; [apply H|]. apply H. apply lower_idempotent.
Qed.

(** *** Handlers that cannot fail *)

(** *** The savings handler *)

(** X19: the savings handler raises exactly when the profile has neither
    an income nor an expense: the fallback multiplies the absent income.
    In every other case it returns a reply, also for an income of [0]. *)
Theorem savings_query_outcome (p : UserProfile) (q : string) (st : State) :
  (income p = None /\ expenses p = [] ->
   _handle_savings_query p q st = (Raise TypeError, st))
  /\ (income p <> None \/ expenses p <> [] ->
      exists reply, _handle_savings_query p q st = (Return reply, st)
                    /\ first_char reply = Some newline).
Proof.
  unfold _handle_savings_query, bind. split.
  - intros [Hi He]. rewrite Hi, He. reflexivity.
  - intros H.
    assert (exists monthly,
              (if nonempty (expenses p)
               then ret (py_sum (values (expenses p)))
               else match income p with
                    | Some income => ret (income * 0.7)
                    | None => raise TypeError
                    end) st = (Return monthly, st)) as [monthly ->].
    { destruct (expenses p) as [|kv rest]; cbn [nonempty]; [|eexists; reflexivity].
      destruct (income p) as [i|]; [eexists; reflexivity|].
      destruct H as [H|H]; contradiction. }
    cbv zeta. unfold ret. eexists. split; [reflexivity|].
    apply first_char_adapt_tone; [|discriminate..].
    destruct (String.eqb (user_type p) "student"); reflexivity.
Qed.

(** *** The budget handler *)

(** The user types the tone table has a style for. *)
Definition known_user_type (user_type : string) : Prop :=
  user_type = "student"%string \/ user_type = "professional"%string.

Lemma tone_style_cases (user_type : string) :
  (known_user_type user_type /\ exists style, tone_style user_type = Return style)
  \/ (~ known_user_type user_type /\ tone_style user_type = Raise KeyError).
Proof.
  unfold tone_style, tone_styles, known_user_type.
  destruct (decide (user_type = "student"%string)) as [->|Hs].
  { left. split; [left; reflexivity|]. rewrite lookup_insert_eq. eexists; reflexivity. }
  rewrite lookup_insert_ne by congruence.
  destruct (decide (user_type = "professional"%string)) as [->|Hp].
  { left. split; [right; reflexivity|]. rewrite lookup_singleton_eq. eexists; reflexivity. }
  right. split; [tauto|].
  rewrite lookup_singleton_ne by congruence. reflexivity.
Qed.

(** X20: with an income that is present and not [0] and a non-empty
    expense mapping, the budget handler raises [KeyError] for a user type
    without a tone style, raises [ZeroDivisionError] for a known user
    type when the amounts add up to [0], and returns an analysis in every
    other case. *)
Theorem budget_query_outcome (p : UserProfile) (q : string) (st : State) (i : Q) :
  income p = Some i -> ~ i == 0 -> expenses p <> [] ->
  (~ known_user_type (user_type p) ->
   _handle_budget_query p q st = (Raise KeyError, st))
  /\ (known_user_type (user_type p) -> py_sum (values (expenses p)) == 0 ->
      _handle_budget_query p q st = (Raise ZeroDivisionError, st))
  /\ (known_user_type (user_type p) -> ~ py_sum (values (expenses p)) == 0 ->
      exists reply, _handle_budget_query p q st = (Return reply, st)).
Proof.
  intros Hi Hnz Hne.
  assert (truthy i = true) as Ht by (apply truthy_true; exact Hnz).
  assert (nonempty (expenses p) = true) as Hnonempty
    by (destruct (expenses p); [contradiction|reflexivity]).
  unfold _handle_budget_query. rewrite Hi, Ht, Hnonempty. cbn [negb orb]. cbv zeta.
  unfold bind, lift, ret, generate_budget_summary. cbv zeta.
  pose proof (spending_insights_cases (expenses p) p) as Hins.
  destruct (tone_style_cases (user_type p)) as [(Hk & style & ->)|(Hu & ->)];
    cbn [bindR].
  - split; [intros Hnk; contradiction|].
    destruct (generate_spending_insights (expenses p) p) as [lines|e].
    + split.
      * intros _ Hz. destruct Hins as [(He & _)|(_ & Hnz' & _)]; contradiction.
      * intros _ _. eexists; reflexivity.
    + destruct Hins as (-> & _ & Hz). split.
      * intros _ _. reflexivity.
      * intros _ Hnz'. contradiction.
  - split; [intros _; reflexivity|]. split; intros Hk; contradiction.
Qed.

Lemma budget_query_outcome_witness :
  (~ known_user_type (user_type Examples.free_rent_professional) ->
   _handle_budget_query Examples.free_rent_professional "budget" init = (Raise KeyError, init))
  /\ (known_user_type (user_type Examples.free_rent_professional) ->
      py_sum (values (expenses Examples.free_rent_professional)) == 0 ->
      _handle_budget_query Examples.free_rent_professional "budget" init = (Raise ZeroDivisionError, init))
  /\ (known_user_type (user_type Examples.free_rent_professional) ->
      ~ py_sum (values (expenses Examples.free_rent_professional)) == 0 ->
      exists reply, _handle_budget_query Examples.free_rent_professional "budget" init
                    = (Return reply, init)).
Proof.
  apply (budget_query_outcome Examples.free_rent_professional "budget" init 75000).
  - reflexivity.
  - intros H. vm_compute in H. discriminate H.
  - discriminate.
Defined.

(** *** The profile summary *)

(** X21: the profile summary never changes the state; it returns the
    fixed string for an unknown identifier, raises [TypeError] for a
    stored profile without an income, and returns a summary for a stored
    profile with an income (also an income of [0]). *)
Theorem profile_summary_outcome (user_id : string) (st : State) :
  snd (get_user_profile_summary user_id st) = st
  /\ match user_profiles (chatbot st) !! user_id with
     | None => fst (get_user_profile_summary user_id st) = Return no_profile_found
     | Some p =>
         match income p with
         | None => fst (get_user_profile_summary user_id st) = Raise TypeError
         | Some _ =>
             exists summary,
               fst (get_user_profile_summary user_id st) = Return summary
               /\ first_char summary = Some newline
         end
     end.
Proof.
  unfold get_user_profile_summary, bind, get_profiles, ret, raise.
  destruct (user_profiles (chatbot st) !! user_id) as [p|]; [|split; reflexivity].
  destruct (income p) as [i|]; [|split; reflexivity].
  cbv zeta. split; [reflexivity|].
  eexists. split; [reflexivity|].
  destruct (nonempty (expenses p)); reflexivity.
Qed.

(** *** The investment handler *)





(** *** The store *)

(** Two profiles that differ at most in their expenses. *)
Definition same_but_expenses (p q : UserProfile) : Prop :=
  user_type q = user_type p /\ age q = age p /\ income q = income p
  /\ financial_goals q = financial_goals p /\ risk_tolerance q = risk_tolerance p.

(** X23: [update_user_expenses] always returns normally and leaves the
    history and the log alone; it creates and removes no profile and
    changes no field of any profile other than expenses; for an unknown
    identifier nothing changes at all, and for a known one the expenses of
    that profile become the old entries updated with the new ones. *)
Theorem update_user_expenses_merges (user_id : string) (new_expenses : list (string * Q))
    (st : State) :
  fst (update_user_expenses user_id new_expenses st) = Return tt
  /\ logged (snd (update_user_expenses user_id new_expenses st)) = logged st
  /\ conversation_history (chatbot (snd (update_user_expenses user_id new_expenses st)))
     = conversation_history (chatbot st)
  /\ (forall id,
        match user_profiles (chatbot st) !! id,
              user_profiles (chatbot (snd (update_user_expenses user_id new_expenses st)))
              !! id with
        | Some p, Some q => same_but_expenses p q
        | None, None => True
        | _, _ => False
        end)
  /\ match user_profiles (chatbot st) !! user_id with
     | None => snd (update_user_expenses user_id new_expenses st) = st
     | Some p =>
         exists q,
           user_profiles (chatbot (snd (update_user_expenses user_id new_expenses st)))
           !! user_id = Some q
           /\ expenses q = dict_update (expenses p) new_expenses
     end.
Proof.
  unfold update_user_expenses, bind, get_profiles, set_profiles, ret.
  destruct (user_profiles (chatbot st) !! user_id) as [p|] eqn:Hp;
    cbn [fst snd chatbot logged user_profiles conversation_history].
  - split; [reflexivity|]. split; [reflexivity|]. split; [reflexivity|]. split.
    + intros id. destruct (decide (id = user_id)) as [->|Hne].
      * rewrite Hp, lookup_insert_eq. repeat split.
      * rewrite lookup_insert_ne by congruence.
        destruct (user_profiles (chatbot st) !! id); [repeat split | exact I].
    + eexists. split; [apply lookup_insert_eq | reflexivity].
  - split; [reflexivity|]. split; [reflexivity|]. split; [reflexivity|]. split.
    + intros id. destruct (user_profiles (chatbot st) !! id); [repeat split | exact I].
    + reflexivity.
Qed.

(** X24: [create_user_profile] stores the profile it returns under the
    identifier, with an empty mapping and list for absent ones and
    [moderate] for an absent risk tolerance; the other profiles stay, and
    a second creation under the same identifier replaces the first. *)
Theorem create_user_profile_stores (user_id user_type : string) (age : Z)
    (income : option Q) (expenses : option (list (string * Q)))
    (financial_goals : option (list string)) (risk_tolerance : option string)
    (st : State) :
  fst (create_user_profile user_id user_type age income expenses financial_goals
         risk_tolerance st)
  = Return (mkUserProfile user_type age income (default [] expenses)
              (default [] financial_goals) (default "moderate"%string risk_tolerance))
  /\ user_profiles
       (chatbot (snd (create_user_profile user_id user_type age income expenses
                        financial_goals risk_tolerance st))) !! user_id
     = Some (mkUserProfile user_type age income (default [] expenses)
               (default [] financial_goals) (default "moderate"%string risk_tolerance))
  /\ (forall id, id <> user_id ->
        user_profiles
          (chatbot (snd (create_user_profile user_id user_type age income expenses
                           financial_goals risk_tolerance st))) !! id
        = user_profiles (chatbot st) !! id)
  /\ (forall user_type' age' income' expenses' financial_goals' risk_tolerance',
        snd (create_user_profile user_id user_type age income expenses financial_goals
               risk_tolerance
               (snd (create_user_profile user_id user_type' age' income' expenses'
                       financial_goals' risk_tolerance' st)))
        = snd (create_user_profile user_id user_type age income expenses financial_goals
                 risk_tolerance st)).
Proof.
  unfold create_user_profile, bind, get_profiles, set_profiles, ret, UserProfile_init.
  cbn [fst snd chatbot logged user_profiles conversation_history].
  split; [reflexivity|]. split; [apply lookup_insert_eq|]. split.
  - intros id Hne. apply lookup_insert_ne. congruence.
  - intros. rewrite insert_insert_eq. reflexivity.
Qed.

(** X25: after [update_user_expenses] for a stored profile, a later
    query sees the merged expenses: the stored profile answers a lookup
    of a category with the new amount when the update has the category
    and with the old one otherwise. *)
Theorem update_then_lookup (user_id : string) (new_expenses : list (string * Q))
    (st : State) (p : UserProfile) (category : string) :
  user_profiles (chatbot st) !! user_id = Some p ->
  List.NoDup (map fst new_expenses) ->
  exists p',
    user_profiles (chatbot (snd (update_user_expenses user_id new_expenses st))) !! user_id
    = Some p'
    /\ dict_lookup category (expenses p')
       = match dict_lookup category new_expenses with
         | Some amount => Some amount
         | None => dict_lookup category (expenses p)
         end
    /\ (List.NoDup (map fst (expenses p)) -> List.NoDup (map fst (expenses p'))).
Proof.
  intros Hp Hnd.
  unfold update_user_expenses, bind, get_profiles, set_profiles, ret. rewrite Hp.
  cbn [fst snd chatbot user_profiles]. rewrite lookup_insert_eq.
  eexists. split; [reflexivity|]. cbn [expenses]. split.
  - rewrite DictExtras.dict_lookup_update_rev, (DictExtras.dict_lookup_rev _ _ Hnd).
    reflexivity.
  - intros Hnp.
    revert Hnp. generalize (expenses p). unfold dict_update.
    induction new_expenses as [|[k v] rest IH]; intros d Hd; cbn [fold_left fst snd].
    + exact Hd.
    + apply IH.
      * cbn [map fst] in Hnd. apply List.NoDup_cons_iff in Hnd. tauto.
      * destruct (DictExtras.dict_set_keys_extend k v d) as (a & _ & Hk). apply Hk, Hd.
Qed.

Lemma update_then_lookup_witness :
  exists p',
    user_profiles
      (chatbot (snd (update_user_expenses "student_123"
                       [("rent"%string, 650); ("books"%string, 40)] Examples.demo_state)))
    !! "student_123" = Some p'
    /\ dict_lookup "rent" (expenses p')
       = match dict_lookup "rent" [("rent"%string, 650); ("books"%string, 40)] with
         | Some amount => Some amount
         | None => dict_lookup "rent" (expenses Examples.demo_student)
         end
    /\ (List.NoDup (map fst (expenses Examples.demo_student))
        -> List.NoDup (map fst (expenses p'))).
Proof.
  apply (update_then_lookup "student_123" [("rent"%string, 650); ("books"%string, 40)]
           Examples.demo_state Examples.demo_student "rent").
  - vm_compute. reflexivity.
  - repeat (apply List.NoDup_cons; [cbn [In]; intuition discriminate|]).
    apply List.NoDup_nil.
Defined.

(** *** The tone adapter *)

Lemma replace_absent (a : ascii) (old new s : string) :
  (forall c, In c (list_ascii_of_string s) -> c <> a) ->
  replace (String a old) new s = s.
Proof.
  unfold replace. induction s as [|c s IH]; intros Habs; [reflexivity|].
  cbn [replace_from].
  rewrite prefix_head_differs.
  - f_equal. apply IH. intros c' Hc'. apply Habs. right. exact Hc'.
  - intros Heq. apply (Habs c); [left; reflexivity | symmetry; exact Heq].
Qed.

Lemma sub_dollar_digits_absent (repl : string -> string) (s : string) :
  (forall c, In c (list_ascii_of_string s) -> c <> "$"%char) ->
  sub_dollar_digits repl s = s.
Proof.
  unfold sub_dollar_digits. induction s as [|c s IH]; intros Habs; [reflexivity|].
  cbn [sub_dollar_digits_from].
  assert (Ascii.eqb c "$" = false) as ->.
  { apply Ascii.eqb_neq. apply Habs. left. reflexivity. }
  cbn [andb]. f_equal. apply IH. intros c' Hc'. apply Habs. right. exact Hc'.
Qed.

(** X26: the tone adapter returns the message as it is for every user
    type other than [student], and for a student when the message has
    none of the characters [Y], [I] and [$] with which its three patterns
    start. *)
Theorem adapt_tone_unchanged (message user_type : string) :
  user_type <> "student"%string
  \/ (forall c, In c (list_ascii_of_string message) ->
                c <> "Y"%char /\ c <> "I"%char /\ c <> "$"%char) ->
  adapt_tone message user_type = message.
Proof.
  intros H. unfold adapt_tone.
  destruct (String.eqb user_type "student") eqn:E; [|reflexivity].
  destruct H as [H|H].
  - apply String.eqb_eq in E. contradiction.
  - rewrite (replace_absent "Y" _ _ message) by (intros c Hc; apply (H c Hc)).
    rewrite (replace_absent "I" _ _ message) by (intros c Hc; apply (H c Hc)).
    apply sub_dollar_digits_absent. intros c Hc. apply (H c Hc).
Qed.

Lemma adapt_tone_unchanged_witness :
  adapt_tone "You should save $20 a month." "professional" = "You should save $20 a month."%string.
Proof.
  apply adapt_tone_unchanged. left. discriminate.
Defined.

End ChatbotExtras.
